(** * Verification of [scripts/webhook-server.py]

    A shallow embedding of the deployment webhook: the request handler
    [WebhookHandler.do_POST] and the deploy trigger [WebhookHandler.deploy].

    Modelling conventions.
    - Python [str] values are Rocq [string]s, that is byte strings: text is
      held in its UTF-8 form, and text that Python decoded from bytes of the
      environment or of a file name (with lone surrogates for the bytes that
      are not UTF-8) is held as those bytes.  [bytes] values are [list byte].
      [encode] is the conversion between the two; [str_encode] is
      [str.encode()] as Python has it, which raises on text that is not
      valid UTF-8.
    - The operating system (file system and the [docker] processes) is an
      abstract state [OS] with two operations, [path_exists] and
      [subprocess_run].  Both may raise.
    - A handler is a computation in a monad that threads the [OS] state,
      may raise a Python exception, and records every observable effect
      (log lines, file-system checks, external commands, bytes sent back to
      the client) as an [Event], in program order. *)

From Stdlib Require Import String Ascii List ZArith Bool Lia.
From Stdlib Require Import Strings.Byte.
From Stdlib Require Import DecimalString.
Import ListNotations.
Local Open Scope list_scope.
Local Open Scope string_scope.

(** ** Python strings and bytes *)

Definition bytes := list byte.

(** The UTF-8 form of [s]: what [s.encode()] returns when [s] is valid
    text.  [str_encode] below is the call itself, which can raise. *)
Definition encode (s : string) : bytes := list_byte_of_string s.

(** A bytes literal [b'...']. *)
Definition bytes_lit (s : string) : bytes := list_byte_of_string s.

(** Truth value of a [str]: only the empty string is falsy. *)
Definition truthy (s : string) : bool :=
  match s with
  | EmptyString => false
  | String _ _ => true
  end.

(** [c.lower()] on one character (header names are ASCII). *)
Definition lower_ascii (c : ascii) : ascii :=
  let n := nat_of_ascii c in
  if (65 <=? n)%nat && (n <=? 90)%nat then ascii_of_nat (n + 32) else c.

(** [s.lower()] *)
Fixpoint lower (s : string) : string :=
  match s with
  | EmptyString => EmptyString
  | String c s' => String (lower_ascii c) (lower s')
  end.

(** [s.split(sep)] for a one-character separator. *)
Fixpoint split (sep : ascii) (s : string) : list string :=
  match s with
  | EmptyString => [EmptyString]
  | String c s' =>
      if Ascii.eqb c sep then EmptyString :: split sep s'
      else match split sep s' with
           | [] => [String c EmptyString]
           | w :: ws => String c w :: ws
           end
  end.

(** [s.lstrip(sep)] for a one-character [sep]. *)
Fixpoint lstrip (sep : ascii) (s : string) : string :=
  match s with
  | EmptyString => EmptyString
  | String c s' => if Ascii.eqb c sep then lstrip sep s' else s
  end.

(** [sep.join(l)] *)
Fixpoint join (sep : string) (l : list string) : string :=
  match l with
  | [] => EmptyString
  | [x] => x
  | x :: xs => x ++ sep ++ join sep xs
  end.

(** ** [pathlib] on POSIX

    [Path(COMPOSE_DIR) / COMPOSE_FILE] and [str(path)] follow
    [pathlib.PurePosixPath]: a path is a root (one of [""], ["/"], ["//"])
    and its components; empty components and ["."] are dropped; joining
    with an absolute path replaces the left operand. *)
Module pathlib.

Record PurePath := mkPath { root : string; parts : list string }.

Definition sep : ascii := "/"%char.

(** [_PosixFlavour.splitroot] *)
Definition splitroot (part : string) : string * string :=
  match part with
  | String c _ =>
      if Ascii.eqb c sep then
        let stripped_part := lstrip sep part in
        if (String.length part - String.length stripped_part =? 2)%nat
        then ("//", stripped_part)
        else ("/", stripped_part)
      else ("", part)
  | EmptyString => ("", part)
  end.

Definition keep_part (x : string) : bool :=
  truthy x && negb (String.eqb x ".").

(** [Path(part)] *)
Definition Path (part : string) : PurePath :=
  if truthy part then
    let (rt, rel) := splitroot part in
    mkPath rt (filter keep_part (split sep rel))
  else mkPath "" [].

(** [self / key] *)
Definition truediv (self : PurePath) (key : string) : PurePath :=
  let other := Path key in
  if truthy (root other) then other
  else mkPath (root self) (parts self ++ parts other)%list.

(** [str(self)] *)
Definition str (self : PurePath) : string :=
  let s := root self ++ join "/" (parts self) in
  if truthy s then s else ".".

End pathlib.

(** ** Exceptions and results *)

Inductive ExcClass :=
| FileNotFoundError
| PermissionError
| OSError
| UnicodeDecodeError
| UnicodeEncodeError
| KeyboardInterrupt
| SystemExit.

(** An exception object: its class and [str(e)]. *)
Inductive BaseException := Exc (cls : ExcClass) (message : string).

Definition exc_class (e : BaseException) : ExcClass :=
  let 'Exc c _ := e in c.

(** [str(e)] *)
Definition str_exc (e : BaseException) : string :=
  let 'Exc _ m := e in m.

(** [isinstance(e, Exception)]: what [except Exception] catches. *)
Definition isinstance_Exception (e : BaseException) : bool :=
  match exc_class e with
  | KeyboardInterrupt | SystemExit => false
  | _ => true
  end.

(** The outcome of a call: a value, or a raised exception. *)
Inductive Result (A : Type) :=
| Returns (a : A)
| Raises (e : BaseException).
Arguments Returns {A} a.
Arguments Raises {A} e.

(** ** External commands *)

(** The arguments of one [subprocess.run] call. *)
Record Invocation := mkInvocation {
  args : list string;
  capture_output : bool;
  text : bool;
  cwd : string
}.

(** [subprocess.CompletedProcess] with captured text output. *)
Record CompletedProcess := mkCompletedProcess {
  cp_args : list string;
  returncode : Z;
  stdout : string;
  stderr : string
}.

(** ** Observable effects *)

Inductive Level := INFO | WARNING | ERROR.

Inductive Event :=
| Log (lvl : Level) (msg : string)
| PathExists (path : string) (r : Result bool)
| SubprocessRun (inv : Invocation) (r : Result CompletedProcess)
| SendResponse (code : Z)
| EndHeaders
| WfileWrite (data : bytes).

(** The external commands of a trace, in order. *)
Fixpoint commands (evs : list Event) : list Invocation :=
  match evs with
  | [] => []
  | SubprocessRun inv _ :: evs' => inv :: commands evs'
  | _ :: evs' => commands evs'
  end.

(** The status lines sent to the client. *)
Fixpoint statuses (evs : list Event) : list Z :=
  match evs with
  | [] => []
  | SendResponse code :: evs' => code :: statuses evs'
  | _ :: evs' => statuses evs'
  end.

(** The response body: everything written to [wfile]. *)
Fixpoint body_written (evs : list Event) : bytes :=
  match evs with
  | [] => []
  | WfileWrite data :: evs' => (data ++ body_written evs')%list
  | _ :: evs' => body_written evs'
  end.

(** The operating system as the handler sees it. *)
Record System := mkSystem {
  OS : Type;
  os_exists : string -> OS -> Result bool * OS;
  os_run : Invocation -> OS -> Result CompletedProcess * OS
}.

(** ** The request *)

Record Request := mkRequest {
  path : string;
  headers : list (string * string);
  body : bytes;
  client_address : string * Z
}.

(** [headers.get(name, failobj)]: the first header whose name matches
    [name] without regard to case. *)
Fixpoint headers_get (hs : list (string * string)) (name failobj : string) : string :=
  match hs with
  | [] => failobj
  | (k, v) :: hs' =>
      if String.eqb (lower k) (lower name) then v
      else headers_get hs' name failobj
  end.

(** ** The handler monad *)

Section Handler.

Variable sys : System.

(** A computation: from an OS state to an outcome, the next OS state and
    the effects performed. *)
Definition M (A : Type) : Type := OS sys -> Result A * OS sys * list Event.

Definition ret {A} (a : A) : M A :=
  fun os => (Returns a, os, []).

Definition bind {A B} (m : M A) (f : A -> M B) : M B :=
  fun os =>
    match m os with
    | (Returns a, os1, ev1) =>
        let '(r, os2, ev2) := f a os1 in (r, os2, (ev1 ++ ev2)%list)
    | (Raises e, os1, ev1) => (Raises e, os1, ev1)
    end.

(** [raise e] *)
Definition raise {A} (e : BaseException) : M A :=
  fun os => (Raises e, os, []).

(** [try: body  except Exception as e: handler(e)] *)
Definition try_except {A} (body : M A) (handler : BaseException -> M A) : M A :=
  fun os =>
    match body os with
    | (Returns a, os1, ev1) => (Returns a, os1, ev1)
    | (Raises e, os1, ev1) =>
        if isinstance_Exception e then
          let '(r, os2, ev2) := handler e os1 in (r, os2, (ev1 ++ ev2)%list)
        else (Raises e, os1, ev1)
    end.

Definition emit (e : Event) : M unit :=
  fun os => (Returns tt, os, [e]).

Notation "x <- m ;; k" := (bind m (fun x => k))
  (at level 61, m at next level, right associativity).
Notation "m ;; k" := (bind m (fun _ => k))
  (at level 61, right associativity).

(** *** Primitive effects *)

Definition logger_info (msg : string) : M unit := emit (Log INFO msg).
Definition logger_warning (msg : string) : M unit := emit (Log WARNING msg).
Definition logger_error (msg : string) : M unit := emit (Log ERROR msg).
(** [logger.exception(msg)]: an ERROR record (the traceback is not modelled). *)
Definition logger_exception (msg : string) : M unit := emit (Log ERROR msg).

Definition send_response (code : Z) : M unit := emit (SendResponse code).
Definition end_headers : M unit := emit EndHeaders.
Definition wfile_write (data : bytes) : M unit := emit (WfileWrite data).

(** [p.exists()] *)
Definition Path_exists (p : pathlib.PurePath) : M bool :=
  fun os =>
    let (r, os') := os_exists sys (pathlib.str p) os in
    (r, os', [PathExists (pathlib.str p) r]).

(** [subprocess.run(args, capture_output=..., text=..., cwd=...)] *)
Definition subprocess_run (args : list string) (capture_output text : bool)
           (cwd : string) : M CompletedProcess :=
  fun os =>
    let inv := mkInvocation args capture_output text cwd in
    let (r, os') := os_run sys inv os in
    (r, os', [SubprocessRun inv r]).

(** *** Configuration (module-level constants read from the environment) *)

Variable SECRET : string.
Variable COMPOSE_DIR : string.
Variable COMPOSE_FILE : string.

(** *** [WebhookHandler.deploy] *)

Definition compose_path : pathlib.PurePath :=
  pathlib.truediv (pathlib.Path COMPOSE_DIR) COMPOSE_FILE.

Definition deploy : M CompletedProcess :=
  found <- Path_exists compose_path ;;
  if negb found then
    raise (Exc FileNotFoundError
               ("Compose file not found: " ++ pathlib.str compose_path))
  else
    logger_info "Pulling latest image..." ;;
    pull_result <- subprocess_run
      ["docker"; "compose"; "-f"; pathlib.str compose_path; "pull"]
      true true COMPOSE_DIR ;;
    if negb (returncode pull_result =? 0)%Z then
      ret pull_result
    else
      logger_info "Restarting container..." ;;
      up_result <- subprocess_run
        ["docker"; "compose"; "-f"; pathlib.str compose_path;
         "up"; "-d"; "--remove-orphans"]
        true true COMPOSE_DIR ;;
      ret up_result.

(** *** [WebhookHandler.do_POST] *)

(** Lines 41-62: what runs once the request is let through, for a client
    that stays connected and text that is valid UTF-8 (the writes and
    [encode()] do not raise; [run_deployment_strict] lifts the second). *)
Definition run_deployment (self : Request) : M unit :=
  logger_info ("Received deployment webhook from " ++ fst (client_address self)) ;;
  try_except
    (result <- deploy ;;
     if (returncode result =? 0)%Z then
       send_response 200 ;;
       end_headers ;;
       wfile_write (bytes_lit "Deployment successful") ;;
       logger_info "Deployment completed successfully"
     else
       send_response 500 ;;
       end_headers ;;
       wfile_write (encode ("Deployment failed: " ++ stderr result)) ;;
       logger_error ("Deployment failed: " ++ stderr result))
    (fun e =>
       send_response 500 ;;
       end_headers ;;
       wfile_write (encode ("Error: " ++ str_exc e)) ;;
       logger_exception "Deployment error").

Definition do_POST (self : Request) : M unit :=
  if truthy SECRET then
    let auth_header := headers_get (headers self) "Authorization" "" in
    let expected := "Bearer " ++ SECRET in
    if negb (String.eqb auth_header expected) then
      logger_warning ("Unauthorized request from " ++ fst (client_address self)) ;;
      send_response 401 ;;
      end_headers ;;
      wfile_write (bytes_lit "Unauthorized")
    else run_deployment self
  else run_deployment self.

End Handler.

Arguments ret {sys A} a.
Arguments bind {sys A B} m f.
Arguments raise {sys A} e.
Arguments try_except {sys A} body handler.

(** ** [str.encode()] as Python has it *)

(** A UTF-8 continuation byte, [0x80..0xBF]. *)
Definition is_continuation (b : nat) : bool := (128 <=? b)%nat && (b <=? 191)%nat.

(** Well-formed UTF-8, as the strict [utf-8] codec has it: shortest forms
    only, no surrogates, nothing above U+10FFFF. *)
Fixpoint utf8_valid_codes (l : list nat) : bool :=
  match l with
  | [] => true
  | b1 :: l1 =>
      if (b1 <? 128)%nat then utf8_valid_codes l1
      else if (b1 <? 194)%nat then false
      else if (b1 <? 224)%nat then
        match l1 with
        | b2 :: l2 => is_continuation b2 && utf8_valid_codes l2
        | _ => false
        end
      else if (b1 <? 240)%nat then
        match l1 with
        | b2 :: b3 :: l3 =>
            is_continuation b2 && is_continuation b3
            && (if (b1 =? 224)%nat then (160 <=? b2)%nat else true)
            && (if (b1 =? 237)%nat then (b2 <? 160)%nat else true)
            && utf8_valid_codes l3
        | _ => false
        end
      else if (b1 <? 245)%nat then
        match l1 with
        | b2 :: b3 :: b4 :: l4 =>
            is_continuation b2 && is_continuation b3 && is_continuation b4
            && (if (b1 =? 240)%nat then (144 <=? b2)%nat else true)
            && (if (b1 =? 244)%nat then (b2 <? 144)%nat else true)
            && utf8_valid_codes l4
        | _ => false
        end
      else false
  end.

(** The text has no lone surrogate: the bytes that hold it are valid UTF-8. *)
Definition utf8_valid (s : string) : bool :=
  utf8_valid_codes (map nat_of_ascii (list_ascii_of_string s)).

Section StrictHandler.

Variable sys : System.

(** [str(e)] of the [UnicodeEncodeError] raised for a given text (it names
    the offending character and its position); a parameter. *)
Variable codec_error : string -> string.

Notation "x <- m ;; k" := (bind m (fun x => k))
  (at level 61, m at next level, right associativity).
Notation "m ;; k" := (bind m (fun _ => k))
  (at level 61, right associativity).

(** [s.encode()]: the UTF-8 form of [s], or [UnicodeEncodeError] when [s]
    holds a lone surrogate. *)
Definition str_encode (s : string) : M sys bytes :=
  if utf8_valid s then ret (encode s)
  else raise (Exc UnicodeEncodeError (codec_error s)).

Variable SECRET : string.
Variable COMPOSE_DIR : string.
Variable COMPOSE_FILE : string.

(** Lines 41-62 with both calls of [encode()] able to raise. *)
Definition run_deployment_strict (self : Request) : M sys unit :=
  logger_info sys ("Received deployment webhook from " ++ fst (client_address self)) ;;
  try_except
    (result <- deploy sys COMPOSE_DIR COMPOSE_FILE ;;
     if (returncode result =? 0)%Z then
       send_response sys 200 ;;
       end_headers sys ;;
       wfile_write sys (bytes_lit "Deployment successful") ;;
       logger_info sys "Deployment completed successfully"
     else
       send_response sys 500 ;;
       end_headers sys ;;
       data <- str_encode ("Deployment failed: " ++ stderr result) ;;
       wfile_write sys data ;;
       logger_error sys ("Deployment failed: " ++ stderr result))
    (fun e =>
       send_response sys 500 ;;
       end_headers sys ;;
       data <- str_encode ("Error: " ++ str_exc e) ;;
       wfile_write sys data ;;
       logger_exception sys "Deployment error").

(** [WebhookHandler.do_POST] with [str.encode()] as Python has it. *)
Definition do_POST_strict (self : Request) : M sys unit :=
  if truthy SECRET then
    let auth_header := headers_get (headers self) "Authorization" "" in
    let expected := "Bearer " ++ SECRET in
    if negb (String.eqb auth_header expected) then
      logger_warning sys ("Unauthorized request from " ++ fst (client_address self)) ;;
      send_response sys 401 ;;
      end_headers sys ;;
      wfile_write sys (bytes_lit "Unauthorized")
    else run_deployment_strict self
  else run_deployment_strict self.

End StrictHandler.

(** ** Reading the result of a run *)

Definition outcome {S A} (run : Result A * S * list Event) : Result A := fst (fst run).
Definition final_os {S A} (run : Result A * S * list Event) : S := snd (fst run).
Definition events {S A} (run : Result A * S * list Event) : list Event := snd run.

(** ** Vocabulary of the specification *)

(** A request is let through when no secret is configured or when its
    [Authorization] header is ["Bearer " + secret]. *)
Definition authenticated (SECRET : string) (self : Request) : bool :=
  negb (truthy SECRET)
  || String.eqb (headers_get (headers self) "Authorization" "") ("Bearer " ++ SECRET).

(** The request carries no [Authorization] header at all. *)
Definition header_absent (name : string) (hs : list (string * string)) : Prop :=
  forall k v, In (k, v) hs -> lower k <> lower name.

(** The orchestration tool: the [docker compose] command. *)
Definition tool : list string := ["docker"; "compose"].

(** [COMPOSE_DIR] joined with [COMPOSE_FILE]. *)
Definition compose_file_path (COMPOSE_DIR COMPOSE_FILE : string) : string :=
  pathlib.str (pathlib.truediv (pathlib.Path COMPOSE_DIR) COMPOSE_FILE).

(** The pull vector [<tool> -f <composeFilePath> pull]. *)
Definition pull_vector (COMPOSE_DIR COMPOSE_FILE : string) : list string :=
  (tool ++ ["-f"; compose_file_path COMPOSE_DIR COMPOSE_FILE; "pull"])%list.

(** The up vector [<tool> -f <composeFilePath> up -d --remove-orphans]. *)
Definition up_vector (COMPOSE_DIR COMPOSE_FILE : string) : list string :=
  (tool ++ ["-f"; compose_file_path COMPOSE_DIR COMPOSE_FILE;
            "up"; "-d"; "--remove-orphans"])%list.

(** A command run in [COMPOSE_DIR] with stdout and stderr captured as text. *)
Definition captured_in (COMPOSE_DIR : string) (argv : list string) : Invocation :=
  {| args := argv; capture_output := true; text := true; cwd := COMPOSE_DIR |}.

Definition PULL (COMPOSE_DIR COMPOSE_FILE : string) : Invocation :=
  captured_in COMPOSE_DIR (pull_vector COMPOSE_DIR COMPOSE_FILE).

Definition UP (COMPOSE_DIR COMPOSE_FILE : string) : Invocation :=
  captured_in COMPOSE_DIR (up_vector COMPOSE_DIR COMPOSE_FILE).

Definition Invocation_eq_dec (x y : Invocation) : {x = y} + {x <> y}.
Proof.
  decide equality; try apply string_dec; try apply bool_dec.
  apply (list_eq_dec string_dec).
Defined.

(** ** A scripted operating system, for concrete runs

    The file system is the list of paths that exist; every external command
    consumes the next scripted outcome.  With the script exhausted the
    [docker] binary is reported missing. *)
Module Sim.

Record World := mkWorld {
  files : list string;
  script : list (Result CompletedProcess)
}.

Definition exists_ (p : string) (w : World) : Result bool * World :=
  (Returns (existsb (String.eqb p) (files w)), w).

Definition run (inv : Invocation) (w : World) : Result CompletedProcess * World :=
  match script w with
  | [] => (Raises (Exc FileNotFoundError
                       "[Errno 2] No such file or directory: 'docker'"), w)
  | r :: rest => (r, mkWorld (files w) rest)
  end.

Definition system : System := mkSystem World exists_ run.

Definition default_dir : string := "/opt/media-server".
Definition default_file : string := "docker-compose.prod.yml".
Definition default_path : string := "/opt/media-server/docker-compose.prod.yml".

Definition exit_with (code : Z) (err : string) : Result CompletedProcess :=
  Returns (mkCompletedProcess [] code "" err).

Definition request (hs : list (string * string)) : Request :=
  mkRequest "/" hs [] ("10.0.0.7", 51234%Z).

End Sim.

(** Requests and worlds used in the concrete instances below. *)
Module Witness.

Import Sim.

Definition secret : string := "abc123".
Definition good : Request := request [("Authorization", "Bearer abc123")].
Definition wrong_scheme : Request := request [("Authorization", "Basic abc123")].
Definition no_header : Request := request [("Host", "deploy.example")].
Definition ready (outcomes : list (Result CompletedProcess)) : World :=
  mkWorld [default_path] outcomes.

End Witness.

(** ** Shapes of runs and traces *)

(** What the handler sends and logs once [deploy] has come back with [r]
    (lines 47-62); nothing when the exception is not an [Exception]. *)
Definition replies_to (r : Result CompletedProcess) : list Event :=
  match r with
  | Returns result =>
      if (returncode result =? 0)%Z then
        [SendResponse 200; EndHeaders;
         WfileWrite (bytes_lit "Deployment successful");
         Log INFO "Deployment completed successfully"]
      else
        [SendResponse 500; EndHeaders;
         WfileWrite (encode ("Deployment failed: " ++ stderr result));
         Log ERROR ("Deployment failed: " ++ stderr result)]
  | Raises e =>
      if isinstance_Exception e then
        [SendResponse 500; EndHeaders;
         WfileWrite (encode ("Error: " ++ str_exc e));
         Log ERROR "Deployment error"]
      else []
  end.

(** The outcome of the handler once [deploy] has come back with [r]. *)
Definition outcome_after (r : Result CompletedProcess) : Result unit :=
  match r with
  | Returns _ => Returns tt
  | Raises e => if isinstance_Exception e then Returns tt else Raises e
  end.

Definition is_command (e : Event) : bool :=
  match e with SubprocessRun _ _ => true | _ => false end.

Definition is_os_call (e : Event) : bool :=
  match e with SubprocessRun _ _ | PathExists _ _ => true | _ => false end.

(** In [evs], every external command comes after an existence check of
    [compose] that answered [True]. *)
Definition commands_follow_check (compose : string) (evs : list Event) : Prop :=
  forall pre inv r post,
    evs = (pre ++ SubprocessRun inv r :: post)%list ->
    In (PathExists compose (Returns true)) pre.

(** In [evs], every run of [up] comes after a run of [pull] that returned
    exit code 0. *)
Definition up_follows_good_pull (pull up : Invocation) (evs : list Event) : Prop :=
  forall pre r post,
    evs = (pre ++ SubprocessRun up r :: post)%list ->
    exists cp, In (SubprocessRun pull (Returns cp)) pre /\ returncode cp = 0%Z.

Section Scenarios.

Variable sys : System.
Variables COMPOSE_DIR COMPOSE_FILE : string.

(** The five ways a deploy can go, by what the operating system answers. *)
Inductive DeployRun (os : OS sys) :
  Result CompletedProcess * OS sys * list Event -> Prop :=
| check_raises e os1 :
    os_exists sys (compose_file_path COMPOSE_DIR COMPOSE_FILE) os = (Raises e, os1) ->
    DeployRun os
      (Raises e, os1,
       [PathExists (compose_file_path COMPOSE_DIR COMPOSE_FILE) (Raises e)])
| file_missing os1 :
    os_exists sys (compose_file_path COMPOSE_DIR COMPOSE_FILE) os = (Returns false, os1) ->
    DeployRun os
      (Raises (Exc FileNotFoundError
                   ("Compose file not found: "
                    ++ compose_file_path COMPOSE_DIR COMPOSE_FILE)),
       os1,
       [PathExists (compose_file_path COMPOSE_DIR COMPOSE_FILE) (Returns false)])
| pull_raises e os1 os2 :
    os_exists sys (compose_file_path COMPOSE_DIR COMPOSE_FILE) os = (Returns true, os1) ->
    os_run sys (PULL COMPOSE_DIR COMPOSE_FILE) os1 = (Raises e, os2) ->
    DeployRun os
      (Raises e, os2,
       [PathExists (compose_file_path COMPOSE_DIR COMPOSE_FILE) (Returns true);
        Log INFO "Pulling latest image...";
        SubprocessRun (PULL COMPOSE_DIR COMPOSE_FILE) (Raises e)])
| pull_fails cp os1 os2 :
    os_exists sys (compose_file_path COMPOSE_DIR COMPOSE_FILE) os = (Returns true, os1) ->
    os_run sys (PULL COMPOSE_DIR COMPOSE_FILE) os1 = (Returns cp, os2) ->
    returncode cp <> 0%Z ->
    DeployRun os
      (Returns cp, os2,
       [PathExists (compose_file_path COMPOSE_DIR COMPOSE_FILE) (Returns true);
        Log INFO "Pulling latest image...";
        SubprocessRun (PULL COMPOSE_DIR COMPOSE_FILE) (Returns cp)])
| reaches_up cp r os1 os2 os3 :
    os_exists sys (compose_file_path COMPOSE_DIR COMPOSE_FILE) os = (Returns true, os1) ->
    os_run sys (PULL COMPOSE_DIR COMPOSE_FILE) os1 = (Returns cp, os2) ->
    returncode cp = 0%Z ->
    os_run sys (UP COMPOSE_DIR COMPOSE_FILE) os2 = (r, os3) ->
    DeployRun os
      (r, os3,
       [PathExists (compose_file_path COMPOSE_DIR COMPOSE_FILE) (Returns true);
        Log INFO "Pulling latest image...";
        SubprocessRun (PULL COMPOSE_DIR COMPOSE_FILE) (Returns cp);
        Log INFO "Restarting container...";
        SubprocessRun (UP COMPOSE_DIR COMPOSE_FILE) r]).

End Scenarios.

(** ** Startup: configuration and [main] *)

(** [key in os.environ], with the value when it is. *)
Fixpoint environ_lookup (environ : list (string * string)) (key : string) : option string :=
  match environ with
  | [] => None
  | (k, v) :: environ' =>
      if String.eqb k key then Some v else environ_lookup environ' key
  end.

(** [os.environ.get(key, default)] with a [str] default. *)
Definition environ_get (environ : list (string * string)) (key default : string) : string :=
  match environ_lookup environ key with
  | Some v => v
  | None => default
  end.

(** [str(n)] for an [int]. *)
Definition str_int (n : Z) : string := NilZero.string_of_int (Z.to_int n).

(** Lines 15-18: the module-level constants, as functions of the process
    environment.  The builtin [int] applied to a [str] is a parameter; it
    answers [None] where Python raises [ValueError]. *)
Module Config.

Definition PORT (int : string -> option Z) (environ : list (string * string)) : option Z :=
  match environ_lookup environ "WEBHOOK_PORT" with
  | Some v => int v
  | None => Some 9000%Z
  end.

Definition SECRET (environ : list (string * string)) : string :=
  environ_get environ "WEBHOOK_SECRET" "".

Definition COMPOSE_DIR (environ : list (string * string)) : string :=
  environ_get environ "COMPOSE_DIR" "/opt/media-server".

Definition COMPOSE_FILE (environ : list (string * string)) : string :=
  environ_get environ "COMPOSE_FILE" "docker-compose.prod.yml".

End Config.

Section Startup.

Variable sys : System.

Notation "x <- m ;; k" := (bind m (fun x => k))
  (at level 61, m at next level, right associativity).
Notation "m ;; k" := (bind m (fun _ => k))
  (at level 61, right associativity).

(** [try: body  except KeyboardInterrupt: handler] *)
Definition try_except_KeyboardInterrupt {A} (body handler : M sys A) : M sys A :=
  fun os =>
    match body os with
    | (Returns a, os1, ev1) => (Returns a, os1, ev1)
    | (Raises e, os1, ev1) =>
        match exc_class e with
        | KeyboardInterrupt =>
            let '(r, os2, ev2) := handler os1 in (r, os2, (ev1 ++ ev2)%list)
        | _ => (Raises e, os1, ev1)
        end
    end.

(** The request loop of [socketserver], for POST requests that arrive one
    after the other: each is handed to the handler; an [Exception] that
    leaves the handler is reported by the server and the loop goes on; any
    other exception leaves the loop. *)
Fixpoint serve_requests (handler : Request -> M sys unit) (reqs : list Request) : M sys unit :=
  match reqs with
  | [] => ret tt
  | self :: reqs' =>
      try_except (handler self) (fun _ => ret tt) ;;
      serve_requests handler reqs'
  end.

(** A run of the request loop that serves [reqs] and is then interrupted
    at the keyboard while it waits for the next request. *)
Definition serve_then_interrupt (reqs : list Request)
           (handler : Request -> M sys unit) : M sys unit :=
  serve_requests handler reqs ;;
  raise (Exc KeyboardInterrupt "").

(** The server object and its three operations belong to [http.server]:
    construction (which binds the address), the request loop and
    [shutdown]. *)
Variable Server : Type.
Variable HTTPServer : string * Z -> (Request -> M sys unit) -> M sys Server.
Variable serve_forever : Server -> M sys unit.
Variable shutdown : Server -> M sys unit.

Variable PORT : Z.
Variable SECRET : string.
Variable COMPOSE_DIR : string.
Variable COMPOSE_FILE : string.

(** *** [main] *)

Definition main : M sys unit :=
  (if negb (truthy SECRET) then
     logger_warning sys "WEBHOOK_SECRET not set - webhook is unprotected!"
   else ret tt) ;;
  let server_address := ("0.0.0.0", PORT) in
  httpd <- HTTPServer server_address (do_POST sys SECRET COMPOSE_DIR COMPOSE_FILE) ;;
  logger_info sys ("Webhook server listening on port " ++ str_int PORT) ;;
  logger_info sys ("Compose directory: " ++ COMPOSE_DIR) ;;
  logger_info sys ("Compose file: " ++ COMPOSE_FILE) ;;
  try_except_KeyboardInterrupt
    (serve_forever httpd)
    (logger_info sys "Shutting down webhook server" ;;
     shutdown httpd).

End Startup.

Arguments try_except_KeyboardInterrupt {sys A} body handler.

(** What [main] logs before it builds the server. *)
Definition startup_warning (SECRET : string) : list Event :=
  if truthy SECRET then []
  else [Log WARNING "WEBHOOK_SECRET not set - webhook is unprotected!"].

(** What [main] logs once the server is bound. *)
Definition startup_banner (PORT : Z) (COMPOSE_DIR COMPOSE_FILE : string) : list Event :=
  [Log INFO ("Webhook server listening on port " ++ str_int PORT);
   Log INFO ("Compose directory: " ++ COMPOSE_DIR);
   Log INFO ("Compose file: " ++ COMPOSE_FILE)].

(** Neither the file system nor a command raises anything but an
    [Exception] (no interrupt, no exit). *)
Definition raises_only_Exceptions (sys : System) : Prop :=
  (forall p os e os', os_exists sys p os = (Raises e, os') -> isinstance_Exception e = true)
  /\ (forall inv os e os', os_run sys inv os = (Raises e, os') -> isinstance_Exception e = true).

(** A path component free of the separator. *)
Fixpoint has_sep (s : string) : bool :=
  match s with
  | EmptyString => false
  | String c s' => Ascii.eqb c pathlib.sep || has_sep s'
  end.

(** An operating system in which every command runs to completion: the
    state lists the files that exist and the exit codes and stderr texts
    still to come (exit code 0 once the list is used up). *)
Module Calm.

Record World := mkWorld {
  files : list string;
  exits : list (Z * string)
}.

Definition exists_ (p : string) (w : World) : Result bool * World :=
  (Returns (existsb (String.eqb p) (files w)), w).

Definition run (inv : Invocation) (w : World) : Result CompletedProcess * World :=
  match exits w with
  | [] => (Returns (mkCompletedProcess (args inv) 0 "" ""), w)
  | (code, err) :: rest =>
      (Returns (mkCompletedProcess (args inv) code "" err), mkWorld (files w) rest)
  end.

Definition system : System := mkSystem World exists_ run.

End Calm.

(** Library stand-ins and inputs for the concrete runs of [main]. *)
Module Demo.

(** A server whose address cannot be bound. *)
Definition port_taken (addr : string * Z) (handler : Request -> M Sim.system unit)
  : M Sim.system unit :=
  raise (Exc OSError "[Errno 98] Address already in use").

(** A server that is built without effect. *)
Definition bound (addr : string * Z) (handler : Request -> M Sim.system unit)
  : M Sim.system unit :=
  ret tt.

Definition interrupted (httpd : unit) : M Sim.system unit :=
  raise (Exc KeyboardInterrupt "").

Definition select_fails (httpd : unit) : M Sim.system unit :=
  raise (Exc OSError "[Errno 9] Bad file descriptor").

Definition no_effect (httpd : unit) : M Sim.system unit := ret tt.

Definition idle : Sim.World := Sim.mkWorld [Sim.default_path] [].

(** A file name as the environment can hold it: the byte [0xFF] is not
    UTF-8, and Python reads it as the lone surrogate [U+DCFF]. *)
Definition undecodable_file : string :=
  "docker-" ++ String "255"%char ".yml".

(** A stand-in for the text of the codec's error. *)
Definition codec_error (s : string) : string :=
  "'utf-8' codec can't encode character: surrogates not allowed".

(** A bare environment, and one that sets an empty secret. *)
Definition bare_environ : list (string * string) :=
  [("PATH", "/usr/bin"); ("HOME", "/root")].

Definition three_requests : list Request :=
  [Sim.request [("Authorization", "Bearer abc123")];
   Sim.request [];
   Sim.request [("Authorization", "Bearer abc123")]].

(** The compose file is present; the first pull fails, later commands
    succeed. *)
Definition flaky : Calm.World :=
  Calm.mkWorld [Sim.default_path] [(1%Z, "manifest unknown")].

End Demo.

(** * Properties *)

(** ** Sanity checks on concrete inputs *)

Example pathlib_default :
  pathlib.str (pathlib.truediv (pathlib.Path "/opt/media-server") "docker-compose.prod.yml")
  = "/opt/media-server/docker-compose.prod.yml".
Proof. reflexivity. Qed.

Example pathlib_absolute_key :
  pathlib.str (pathlib.truediv (pathlib.Path "/opt/media-server") "/etc/x.yml") = "/etc/x.yml".
Proof. reflexivity. Qed.

Example pathlib_normalises :
  pathlib.str (pathlib.truediv (pathlib.Path "a//b/") "./c/../d") = "a/b/c/../d"
  /\ pathlib.str (pathlib.truediv (pathlib.Path "") "") = "."
  /\ pathlib.str (pathlib.truediv (pathlib.Path "//a") "b") = "//a/b"
  /\ pathlib.str (pathlib.truediv (pathlib.Path "///a") "b") = "/a/b"
  /\ pathlib.str (pathlib.truediv (pathlib.Path "a") "///b//c/") = "/b/c".
Proof. repeat split; reflexivity. Qed.

Example headers_get_ignores_case :
  headers_get [("Host", "example"); ("authorization", "Bearer abc123")] "Authorization" ""
  = "Bearer abc123".
Proof. reflexivity. Qed.

(** Secret ["abc123"], matching header, compose file present, both stages
    exit 0. *)
Example run_success :
  do_POST Sim.system "abc123" Sim.default_dir Sim.default_file
          (Sim.request [("Authorization", "Bearer abc123")])
          (Sim.mkWorld [Sim.default_path] [Sim.exit_with 0 ""; Sim.exit_with 0 ""])
  = (Returns tt,
     Sim.mkWorld [Sim.default_path] [],
     [Log INFO "Received deployment webhook from 10.0.0.7";
      PathExists Sim.default_path (Returns true);
      Log INFO "Pulling latest image...";
      SubprocessRun (PULL Sim.default_dir Sim.default_file) (Sim.exit_with 0 "");
      Log INFO "Restarting container...";
      SubprocessRun (UP Sim.default_dir Sim.default_file) (Sim.exit_with 0 "");
      SendResponse 200; EndHeaders;
      WfileWrite (bytes_lit "Deployment successful");
      Log INFO "Deployment completed successfully"]).
Proof. reflexivity. Qed.

(** Wrong token: rejected before anything else happens. *)
Example run_wrong_token :
  do_POST Sim.system "abc123" Sim.default_dir Sim.default_file
          (Sim.request [("Authorization", "Bearer nope")])
          (Sim.mkWorld [Sim.default_path] [Sim.exit_with 0 ""; Sim.exit_with 0 ""])
  = (Returns tt,
     Sim.mkWorld [Sim.default_path] [Sim.exit_with 0 ""; Sim.exit_with 0 ""],
     [Log WARNING "Unauthorized request from 10.0.0.7";
      SendResponse 401; EndHeaders; WfileWrite (bytes_lit "Unauthorized")]).
Proof. reflexivity. Qed.

(** The [docker] binary is missing: [subprocess.run] raises and the handler
    answers 500. *)
Example run_docker_missing :
  events (do_POST Sim.system "" Sim.default_dir Sim.default_file
                  (Sim.request []) (Sim.mkWorld [Sim.default_path] []))
  = [Log INFO "Received deployment webhook from 10.0.0.7";
     PathExists Sim.default_path (Returns true);
     Log INFO "Pulling latest image...";
     SubprocessRun (PULL Sim.default_dir Sim.default_file)
       (Raises (Exc FileNotFoundError "[Errno 2] No such file or directory: 'docker'"));
     SendResponse 500; EndHeaders;
     WfileWrite (encode "Error: [Errno 2] No such file or directory: 'docker'");
     Log ERROR "Deployment error"].
Proof. reflexivity. Qed.

(** An interrupt during the pull is not an [Exception]: it leaves the
    handler and nothing is sent. *)
Example run_interrupted :
  do_POST Sim.system "" Sim.default_dir Sim.default_file (Sim.request [])
          (Sim.mkWorld [Sim.default_path] [Raises (Exc KeyboardInterrupt "")])
  = (Raises (Exc KeyboardInterrupt ""),
     Sim.mkWorld [Sim.default_path] [],
     [Log INFO "Received deployment webhook from 10.0.0.7";
      PathExists Sim.default_path (Returns true);
      Log INFO "Pulling latest image...";
      SubprocessRun (PULL Sim.default_dir Sim.default_file)
        (Raises (Exc KeyboardInterrupt ""))]).
Proof. reflexivity. Qed.

(** ** General facts *)

Lemma truthy_nonempty (s : string) : truthy s = true <-> s <> "".
Proof. destruct s; simpl; split; congruence. Qed.

Lemma truthy_empty (s : string) : truthy s = false <-> s = "".
Proof. destruct s; simpl; split; congruence. Qed.

Lemma headers_get_absent (hs : list (string * string)) (name failobj : string) :
  header_absent name hs -> headers_get hs name failobj = failobj.
Proof.
  induction hs as [|[k v] hs IH]; intros Habs; simpl; [reflexivity|].
  destruct (String.eqb (lower k) (lower name)) eqn:E.
  - apply String.eqb_eq in E. exfalso. apply (Habs k v); [left; reflexivity | exact E].
  - apply IH. intros k' v' Hin. apply (Habs k' v'). right; exact Hin.
Qed.

Lemma authenticated_no_secret (self : Request) : authenticated "" self = true.
Proof. reflexivity. Qed.

Lemma authenticated_iff (SECRET : string) (self : Request) :
  authenticated SECRET self = true <->
  SECRET = "" \/ headers_get (headers self) "Authorization" "" = "Bearer " ++ SECRET.
Proof.
  unfold authenticated. rewrite orb_true_iff, negb_true_iff, String.eqb_eq, truthy_empty.
  reflexivity.
Qed.

Lemma PULL_neq_UP (D F : string) : PULL D F <> UP D F.
Proof. unfold PULL, UP, captured_in, pull_vector, up_vector; simpl. congruence. Qed.

(** Splitting a known trace at one of its events. *)
Lemma cons_eq_app_cons {A} (a e : A) (l pre post : list A) :
  a :: l = (pre ++ e :: post)%list ->
  (pre = [] /\ a = e /\ l = post)
  \/ exists pre', pre = a :: pre' /\ l = (pre' ++ e :: post)%list.
Proof.
  destruct pre as [|x pre']; simpl; intros H; injection H as -> ->.
  - left. repeat split.
  - right. exists pre'. split; reflexivity.
Qed.

Lemma nil_eq_app_cons {A} (e : A) (pre post : list A) :
  [] <> (pre ++ e :: post)%list.
Proof. destruct pre; discriminate. Qed.

(** Enumerate the positions at which a concrete trace can be split. *)
Ltac split_trace H :=
  lazymatch type of H with
  | [] = (_ ++ _ :: _)%list => exfalso; exact (nil_eq_app_cons _ _ _ H)
  | _ :: _ = (_ ++ _ :: _)%list =>
      let pre' := fresh "pre" in
      let Hp := fresh "Hpre" in
      let He := fresh "Hev" in
      apply cons_eq_app_cons in H;
      destruct H as [(Hp & He & H) | (pre' & Hp & H)];
      [ try discriminate He | split_trace H ]
  end.

Section Properties.

Variable sys : System.
Variables SECRET COMPOSE_DIR COMPOSE_FILE : string.

Local Abbreviation the_path := (compose_file_path COMPOSE_DIR COMPOSE_FILE).
Local Abbreviation the_PULL := (PULL COMPOSE_DIR COMPOSE_FILE).
Local Abbreviation the_UP := (UP COMPOSE_DIR COMPOSE_FILE).
Local Abbreviation the_deploy := (deploy sys COMPOSE_DIR COMPOSE_FILE).
Local Abbreviation the_run_deployment := (run_deployment sys COMPOSE_DIR COMPOSE_FILE).
Local Abbreviation the_do_POST := (do_POST sys SECRET COMPOSE_DIR COMPOSE_FILE).

(** *** The five ways a deploy can go *)

Lemma deploy_exists_raises os os1 e :
  os_exists sys the_path os = (Raises e, os1) ->
  the_deploy os = (Raises e, os1, [PathExists the_path (Raises e)]).
Proof.
  intros H. unfold deploy, bind, Path_exists, compose_path.
  fold the_path. rewrite H. reflexivity.
Qed.

Lemma deploy_missing_file os os1 :
  os_exists sys the_path os = (Returns false, os1) ->
  the_deploy os =
    (Raises (Exc FileNotFoundError ("Compose file not found: " ++ the_path)),
     os1, [PathExists the_path (Returns false)]).
Proof.
  intros H. unfold deploy, bind, Path_exists, compose_path.
  fold the_path. rewrite H. reflexivity.
Qed.

Lemma deploy_pull_raises os os1 os2 e :
  os_exists sys the_path os = (Returns true, os1) ->
  os_run sys the_PULL os1 = (Raises e, os2) ->
  the_deploy os =
    (Raises e, os2,
     [PathExists the_path (Returns true); Log INFO "Pulling latest image...";
      SubprocessRun the_PULL (Raises e)]).
Proof.
  intros H1 H2.
  unfold deploy, bind, Path_exists, subprocess_run, logger_info, emit, compose_path.
  fold the_path. rewrite H1. simpl.
  change (mkInvocation [_; _; _; _; _] true true COMPOSE_DIR) with the_PULL.
  rewrite H2. reflexivity.
Qed.

Lemma deploy_pull_fails os os1 os2 cp :
  os_exists sys the_path os = (Returns true, os1) ->
  os_run sys the_PULL os1 = (Returns cp, os2) ->
  returncode cp <> 0%Z ->
  the_deploy os =
    (Returns cp, os2,
     [PathExists the_path (Returns true); Log INFO "Pulling latest image...";
      SubprocessRun the_PULL (Returns cp)]).
Proof.
  intros H1 H2 Hrc. apply Z.eqb_neq in Hrc.
  unfold deploy, bind, Path_exists, subprocess_run, logger_info, emit, compose_path.
  fold the_path. rewrite H1. simpl.
  change (mkInvocation [_; _; _; _; _] true true COMPOSE_DIR) with the_PULL.
  rewrite H2. simpl. rewrite Hrc. reflexivity.
Qed.

Lemma deploy_reaches_up os os1 os2 os3 cp r :
  os_exists sys the_path os = (Returns true, os1) ->
  os_run sys the_PULL os1 = (Returns cp, os2) ->
  returncode cp = 0%Z ->
  os_run sys the_UP os2 = (r, os3) ->
  the_deploy os =
    (r, os3,
     [PathExists the_path (Returns true); Log INFO "Pulling latest image...";
      SubprocessRun the_PULL (Returns cp); Log INFO "Restarting container...";
      SubprocessRun the_UP r]).
Proof.
  intros H1 H2 Hrc H3. apply Z.eqb_eq in Hrc.
  unfold deploy, bind, Path_exists, subprocess_run, logger_info, emit, compose_path.
  fold the_path. rewrite H1. simpl.
  change (mkInvocation [_; _; _; _; _] true true COMPOSE_DIR) with the_PULL.
  rewrite H2. simpl. rewrite Hrc. simpl.
  change (mkInvocation [_; _; _; _; _; _; _] true true COMPOSE_DIR) with the_UP.
  rewrite H3. destruct r; reflexivity.
Qed.

(** *** How the handler answers a deploy outcome *)

Lemma run_deployment_success self os os1 evs cp :
  the_deploy os = (Returns cp, os1, evs) ->
  returncode cp = 0%Z ->
  the_run_deployment self os =
    (Returns tt, os1,
     Log INFO ("Received deployment webhook from " ++ fst (client_address self))
     :: evs ++ [SendResponse 200; EndHeaders;
                WfileWrite (bytes_lit "Deployment successful");
                Log INFO "Deployment completed successfully"])%list.
Proof.
  intros Hd Hrc. apply Z.eqb_eq in Hrc.
  unfold run_deployment, try_except, bind, logger_info, emit.
  rewrite Hd, Hrc. reflexivity.
Qed.

Lemma run_deployment_failed self os os1 evs cp :
  the_deploy os = (Returns cp, os1, evs) ->
  returncode cp <> 0%Z ->
  the_run_deployment self os =
    (Returns tt, os1,
     Log INFO ("Received deployment webhook from " ++ fst (client_address self))
     :: evs ++ [SendResponse 500; EndHeaders;
                WfileWrite (encode ("Deployment failed: " ++ stderr cp));
                Log ERROR ("Deployment failed: " ++ stderr cp)])%list.
Proof.
  intros Hd Hrc. apply Z.eqb_neq in Hrc.
  unfold run_deployment, try_except, bind, logger_info, emit.
  rewrite Hd, Hrc. reflexivity.
Qed.

Lemma run_deployment_caught self os os1 evs e :
  the_deploy os = (Raises e, os1, evs) ->
  isinstance_Exception e = true ->
  the_run_deployment self os =
    (Returns tt, os1,
     Log INFO ("Received deployment webhook from " ++ fst (client_address self))
     :: evs ++ [SendResponse 500; EndHeaders;
                WfileWrite (encode ("Error: " ++ str_exc e));
                Log ERROR "Deployment error"])%list.
Proof.
  intros Hd He.
  unfold run_deployment, try_except, bind, logger_info, emit.
  rewrite Hd, He. reflexivity.
Qed.

Lemma run_deployment_escapes self os os1 evs e :
  the_deploy os = (Raises e, os1, evs) ->
  isinstance_Exception e = false ->
  the_run_deployment self os =
    (Raises e, os1,
     Log INFO ("Received deployment webhook from " ++ fst (client_address self))
     :: evs).
Proof.
  intros Hd He.
  unfold run_deployment, try_except, bind, logger_info, emit.
  rewrite Hd, He. reflexivity.
Qed.

(** *** The authentication gate *)

Lemma do_POST_authenticated self :
  authenticated SECRET self = true ->
  the_do_POST self = the_run_deployment self.
Proof.
  unfold authenticated, do_POST. intros H.
  destruct (truthy SECRET); simpl in *; [|reflexivity].
  rewrite H. reflexivity.
Qed.

Lemma do_POST_rejected self os :
  authenticated SECRET self = false ->
  the_do_POST self os =
    (Returns tt, os,
     [Log WARNING ("Unauthorized request from " ++ fst (client_address self));
      SendResponse 401; EndHeaders; WfileWrite (bytes_lit "Unauthorized")]).
Proof.
  unfold authenticated, do_POST. intros H.
  apply orb_false_iff in H. destruct H as [H1 H2].
  apply negb_false_iff in H1. rewrite H1, H2. reflexivity.
Qed.

(** Every deploy starts by checking that the compose file exists. *)
Lemma deploy_first_event os :
  exists r, hd_error (events (the_deploy os)) = Some (PathExists the_path r).
Proof.
  unfold deploy, bind, Path_exists, compose_path. fold the_path.
  destruct (os_exists sys the_path os) as [[found|e] os1]; simpl.
  - match goal with
    | |- context [match ?m os1 with _ => _ end] =>
        destruct (m os1) as [[[a|e] os2] evs]
    end; eexists; reflexivity.
  - eexists; reflexivity.
Qed.

Lemma deploy_cases os : DeployRun sys COMPOSE_DIR COMPOSE_FILE os (the_deploy os).
Proof.
  destruct (os_exists sys the_path os) as [[[|]|e] os1] eqn:Hex.
  - destruct (os_run sys the_PULL os1) as [[cp|e] os2] eqn:Hpull.
    + destruct (Z.eq_dec (returncode cp) 0) as [Hrc|Hrc].
      * destruct (os_run sys the_UP os2) as [r os3] eqn:Hup.
        rewrite (deploy_reaches_up _ _ _ _ _ _ Hex Hpull Hrc Hup).
        eapply reaches_up; eassumption.
      * rewrite (deploy_pull_fails _ _ _ _ Hex Hpull Hrc).
        eapply pull_fails; eassumption.
    + rewrite (deploy_pull_raises _ _ _ _ Hex Hpull).
      eapply pull_raises; eassumption.
  - rewrite (deploy_missing_file _ _ Hex). apply file_missing; assumption.
  - rewrite (deploy_exists_raises _ _ _ Hex). apply check_raises; assumption.
Qed.

Lemma run_deployment_spec self os r os1 evs :
  the_deploy os = (r, os1, evs) ->
  the_run_deployment self os =
    (outcome_after r, os1,
     Log INFO ("Received deployment webhook from " ++ fst (client_address self))
     :: evs ++ replies_to r)%list.
Proof.
  intros Hd. destruct r as [cp|e]; simpl.
  - destruct (Z.eq_dec (returncode cp) 0) as [Hrc|Hrc].
    + rewrite (run_deployment_success _ _ _ _ _ Hd Hrc).
      apply Z.eqb_eq in Hrc. rewrite Hrc. reflexivity.
    + rewrite (run_deployment_failed _ _ _ _ _ Hd Hrc).
      apply Z.eqb_neq in Hrc. rewrite Hrc. reflexivity.
  - destruct (isinstance_Exception e) eqn:He.
    + rewrite (run_deployment_caught _ _ _ _ _ Hd He). reflexivity.
    + rewrite (run_deployment_escapes _ _ _ _ _ Hd He), app_nil_r.
      reflexivity.
Qed.

(** *** Claims about the authentication gate *)

(** C1.  With a non-empty secret, a POST whose [Authorization] header is
    absent or differs from ["Bearer " + SECRET] is answered 401 with body
    ["Unauthorized"]; the handler performs exactly the warning log and the
    three response steps, leaves the operating system untouched, runs no
    external command and never enters [deploy] (no existence check is
    made). *)
Theorem C1_unauthorized_request_rejected (self : Request) (os : OS sys) :
  SECRET <> "" ->
  header_absent "Authorization" (headers self)
  \/ headers_get (headers self) "Authorization" "" <> "Bearer " ++ SECRET ->
  the_do_POST self os =
    (Returns tt, os,
     [Log WARNING ("Unauthorized request from " ++ fst (client_address self));
      SendResponse 401; EndHeaders; WfileWrite (bytes_lit "Unauthorized")])
  /\ statuses (events (the_do_POST self os)) = [401%Z]
  /\ body_written (events (the_do_POST self os)) = bytes_lit "Unauthorized"
  /\ commands (events (the_do_POST self os)) = []
  /\ forall e, In e (events (the_do_POST self os)) -> is_os_call e = false.
Proof.
  intros Hsecret Hauth.
  assert (Hne : headers_get (headers self) "Authorization" "" <> "Bearer " ++ SECRET).
  { destruct Hauth as [Habs|Hne]; [|exact Hne].
    rewrite (headers_get_absent _ _ _ Habs). discriminate. }
  assert (Hrej : authenticated SECRET self = false).
  { unfold authenticated. apply orb_false_iff. split.
    - apply negb_false_iff, truthy_nonempty, Hsecret.
    - apply String.eqb_neq, Hne. }
  rewrite (do_POST_rejected self os Hrej). simpl.
  repeat split.
  intros e [<-|[<-|[<-|[<-|[]]]]]; reflexivity.
Qed.

(** C6.  With the empty secret every POST is let through: the handler is
    the deployment path itself, its behaviour does not depend on the
    request's headers, the first thing it does after the info log is the
    existence check that opens [deploy], and 401 is never sent. *)
Theorem C6_empty_secret_always_authenticated (self : Request) (os : OS sys) :
  SECRET = "" ->
  authenticated SECRET self = true
  /\ the_do_POST self os = the_run_deployment self os
  /\ (forall hs, the_do_POST
                   (mkRequest (path self) hs (body self) (client_address self)) os
                 = the_do_POST self os)
  /\ (exists r evs,
        events (the_do_POST self os) =
          Log INFO ("Received deployment webhook from " ++ fst (client_address self))
          :: PathExists the_path r :: evs)
  /\ ~ In 401%Z (statuses (events (the_do_POST self os))).
Proof.
  intros Hsecret.
  assert (Hauth : forall req, authenticated SECRET req = true).
  { intros req. rewrite Hsecret. apply authenticated_no_secret. }
  split; [apply Hauth|].
  split; [rewrite (do_POST_authenticated self (Hauth self)); reflexivity|].
  split.
  { intros hs. rewrite !do_POST_authenticated by apply Hauth. reflexivity. }
  rewrite (do_POST_authenticated self (Hauth self)).
  destruct (the_deploy os) as [[r os1] evs] eqn:Hd.
  rewrite (run_deployment_spec self os r os1 evs Hd).
  pose proof (deploy_cases os) as Hcases. rewrite Hd in Hcases.
  split.
  - inversion Hcases; subst; simpl; eexists; eexists; reflexivity.
  - inversion Hcases; subst; unfold events, replies_to; simpl;
      repeat match goal with
             | |- context [if ?c then _ else _] => destruct c
             | |- context [match ?r with Returns _ => _ | Raises _ => _ end] => destruct r
             end; simpl; intuition discriminate.
Qed.

(** *** Claims about the two stages *)

(** C2.  When the compose file exists and the pull command returns a
    non-zero exit code, [deploy] returns the pull result straight after
    that command (the up command is not run), and an authenticated request
    is answered 500 with body ["Deployment failed: " + stderr of the pull]. *)
Theorem C2_pull_failure_is_final (self : Request) (os os1 os2 : OS sys)
        (pull_result : CompletedProcess) :
  os_exists sys the_path os = (Returns true, os1) ->
  os_run sys the_PULL os1 = (Returns pull_result, os2) ->
  returncode pull_result <> 0%Z ->
  the_deploy os =
    (Returns pull_result, os2,
     [PathExists the_path (Returns true); Log INFO "Pulling latest image...";
      SubprocessRun the_PULL (Returns pull_result)])
  /\ commands (events (the_deploy os)) = [the_PULL]
  /\ ~ In the_UP (commands (events (the_deploy os)))
  /\ (authenticated SECRET self = true ->
      outcome (the_do_POST self os) = Returns tt
      /\ statuses (events (the_do_POST self os)) = [500%Z]
      /\ body_written (events (the_do_POST self os))
         = encode ("Deployment failed: " ++ stderr pull_result)
      /\ commands (events (the_do_POST self os)) = [the_PULL]
      /\ ~ In the_UP (commands (events (the_do_POST self os)))).
Proof.
  intros Hex Hpull Hrc.
  pose proof (deploy_pull_fails _ _ _ _ Hex Hpull Hrc) as Hd.
  assert (Hnot : ~ In the_UP [the_PULL]).
  { intros [H|[]]. exact (PULL_neq_UP _ _ H). }
  rewrite Hd. split; [reflexivity|]. split; [reflexivity|]. split; [exact Hnot|].
  intros Hauth. rewrite (do_POST_authenticated self Hauth).
  rewrite (run_deployment_failed self _ _ _ _ Hd Hrc).
  cbn [outcome events final_os fst snd statuses body_written commands app]. rewrite app_nil_r.
  repeat split. exact Hnot.
Qed.

(** C3.  Authenticated request, compose file present, pull exits 0, up
    exits 0: the answer is 200 with body exactly ["Deployment successful"]. *)
Theorem C3_both_stages_succeed (self : Request) (os os1 os2 os3 : OS sys)
        (pull_result up_result : CompletedProcess) :
  authenticated SECRET self = true ->
  os_exists sys the_path os = (Returns true, os1) ->
  os_run sys the_PULL os1 = (Returns pull_result, os2) ->
  returncode pull_result = 0%Z ->
  os_run sys the_UP os2 = (Returns up_result, os3) ->
  returncode up_result = 0%Z ->
  outcome (the_do_POST self os) = Returns tt
  /\ statuses (events (the_do_POST self os)) = [200%Z]
  /\ body_written (events (the_do_POST self os)) = bytes_lit "Deployment successful".
Proof.
  intros Hauth Hex Hpull Hrc1 Hup Hrc2.
  pose proof (deploy_reaches_up _ _ _ _ _ _ Hex Hpull Hrc1 Hup) as Hd.
  rewrite (do_POST_authenticated self Hauth).
  rewrite (run_deployment_success self _ _ _ _ Hd Hrc2).
  cbn [outcome events final_os fst snd statuses body_written commands app]. rewrite app_nil_r. repeat split.
Qed.

(** C4.  Authenticated request, compose file present, pull exits 0, up
    exits non-zero: the answer is 500 with body
    ["Deployment failed: " + stderr of the up], and the pull command was
    run exactly once. *)
Theorem C4_up_failure_reported (self : Request) (os os1 os2 os3 : OS sys)
        (pull_result up_result : CompletedProcess) :
  authenticated SECRET self = true ->
  os_exists sys the_path os = (Returns true, os1) ->
  os_run sys the_PULL os1 = (Returns pull_result, os2) ->
  returncode pull_result = 0%Z ->
  os_run sys the_UP os2 = (Returns up_result, os3) ->
  returncode up_result <> 0%Z ->
  outcome (the_deploy os) = Returns up_result
  /\ statuses (events (the_do_POST self os)) = [500%Z]
  /\ body_written (events (the_do_POST self os))
     = encode ("Deployment failed: " ++ stderr up_result)
  /\ commands (events (the_do_POST self os)) = [the_PULL; the_UP]
  /\ count_occ Invocation_eq_dec (commands (events (the_do_POST self os))) the_PULL = 1.
Proof.
  intros Hauth Hex Hpull Hrc1 Hup Hrc2.
  pose proof (deploy_reaches_up _ _ _ _ _ _ Hex Hpull Hrc1 Hup) as Hd.
  rewrite (do_POST_authenticated self Hauth).
  rewrite (run_deployment_failed self _ _ _ _ Hd Hrc2), Hd.
  cbn [outcome events final_os fst snd statuses body_written commands app].
  rewrite app_nil_r. repeat split.
  cbn [count_occ fst snd].
  destruct (Invocation_eq_dec the_PULL the_PULL) as [_|Hn]; [|congruence].
  destruct (Invocation_eq_dec the_UP the_PULL) as [Heq|_]; [|reflexivity].
  exfalso. exact (PULL_neq_UP _ _ (eq_sym Heq)).
Qed.

(** *** Claims about the commands *)

(** C7.  A deploy that succeeds (returns a result with exit code 0) has run
    exactly two commands: [docker compose -f <path> pull], then
    [docker compose -f <path> up -d --remove-orphans], both with
    [cwd=COMPOSE_DIR], [capture_output=True] and [text=True], where
    [<path>] is [str(Path(COMPOSE_DIR) / COMPOSE_FILE)]; both came back
    with a completed process, the pull with exit code 0. *)
Theorem C7_successful_deploy_runs_pull_then_up
        (os os' : OS sys) (result : CompletedProcess) (evs : list Event) :
  the_deploy os = (Returns result, os', evs) ->
  returncode result = 0%Z ->
  commands evs =
    [ {| args := tool ++ ["-f"; the_path; "pull"];
         capture_output := true; text := true; cwd := COMPOSE_DIR |};
      {| args := tool ++ ["-f"; the_path; "up"; "-d"; "--remove-orphans"];
         capture_output := true; text := true; cwd := COMPOSE_DIR |} ]
  /\ the_path = pathlib.str (pathlib.truediv (pathlib.Path COMPOSE_DIR) COMPOSE_FILE)
  /\ exists pull_result,
       returncode pull_result = 0%Z
       /\ evs = [PathExists the_path (Returns true);
                 Log INFO "Pulling latest image...";
                 SubprocessRun the_PULL (Returns pull_result);
                 Log INFO "Restarting container...";
                 SubprocessRun the_UP (Returns result)].
Proof.
  intros Hd Hrc.
  pose proof (deploy_cases os) as Hc. rewrite Hd in Hc.
  inversion Hc; subst; try contradiction.
  split; [reflexivity|]. split; [reflexivity|].
  eexists; split; [eassumption|reflexivity].
Qed.

(** C10.  Whatever the request and whatever the operating system answers,
    a handled request runs at most two commands, each of them the pull or
    the up command; every command comes after the existence check of the
    compose file ([COMPOSE_DIR] joined with [COMPOSE_FILE]) having answered
    [True]; and every run of the up command comes after a run of the pull
    command that returned exit code 0. *)
Theorem C10_command_discipline (self : Request) (os : OS sys) :
  length (commands (events (the_do_POST self os))) <= 2
  /\ (forall inv, In inv (commands (events (the_do_POST self os))) ->
                  inv = the_PULL \/ inv = the_UP)
  /\ commands_follow_check the_path (events (the_do_POST self os))
  /\ up_follows_good_pull the_PULL the_UP (events (the_do_POST self os)).
Proof.
  destruct (authenticated SECRET self) eqn:Hauth.
  - rewrite (do_POST_authenticated self Hauth).
    destruct (the_deploy os) as [[r os1] evs] eqn:Hd.
    rewrite (run_deployment_spec self os r os1 evs Hd).
    pose proof (deploy_cases os) as Hc. rewrite Hd in Hc.
    unfold commands_follow_check, up_follows_good_pull, replies_to.
    inversion Hc; subst; clear Hc;
      repeat match goal with
             | |- context [if ?c then _ else _] => destruct c
             | |- context [match ?x with Returns _ => _ | Raises _ => _ end] =>
                 destruct x
             end;
      cbn [events snd app commands length];
      (split; [lia|]);
      (split; [intros inv Hin; simpl in Hin; intuition auto|]);
      split; intros until post; intros Hsplit; split_trace Hsplit; subst;
      try (exfalso; injection Hev as Heq _; exact (PULL_neq_UP _ _ Heq));
      try (simpl; auto 8; fail);
      try (eexists; split; [simpl; eauto 8 | eassumption]).
  - rewrite (do_POST_rejected self os Hauth).
    unfold commands_follow_check, up_follows_good_pull.
    cbn [events snd commands length].
    split; [lia|]. split; [intros inv []|].
    split; intros until post; intros Hsplit; split_trace Hsplit.
Qed.

End Properties.

(** C9.  Two authenticated requests handled from the same operating-system
    state with the same [COMPOSE_DIR] and [COMPOSE_FILE] run the same
    commands, whatever their path, body, headers and client address, and
    whatever secret let them through: the two runs differ in nothing but the
    first log line, and the commands are a prefix of the pull and up
    commands, which are built from [COMPOSE_DIR] and [COMPOSE_FILE] alone. *)
Theorem C9_commands_independent_of_request
        (sys : System) (COMPOSE_DIR COMPOSE_FILE SECRET1 SECRET2 : string)
        (self1 self2 : Request) (os : OS sys) :
  authenticated SECRET1 self1 = true ->
  authenticated SECRET2 self2 = true ->
  let run1 := do_POST sys SECRET1 COMPOSE_DIR COMPOSE_FILE self1 os in
  let run2 := do_POST sys SECRET2 COMPOSE_DIR COMPOSE_FILE self2 os in
  commands (events run1) = commands (events run2)
  /\ tl (events run1) = tl (events run2)
  /\ final_os run1 = final_os run2
  /\ outcome run1 = outcome run2
  /\ (commands (events run1) = []
      \/ commands (events run1) = [PULL COMPOSE_DIR COMPOSE_FILE]
      \/ commands (events run1) =
           [PULL COMPOSE_DIR COMPOSE_FILE; UP COMPOSE_DIR COMPOSE_FILE]).
Proof.
  intros Hauth1 Hauth2 run1 run2. subst run1 run2.
  rewrite (do_POST_authenticated sys SECRET1 COMPOSE_DIR COMPOSE_FILE self1 Hauth1).
  rewrite (do_POST_authenticated sys SECRET2 COMPOSE_DIR COMPOSE_FILE self2 Hauth2).
  destruct (deploy sys COMPOSE_DIR COMPOSE_FILE os) as [[r os1] evs] eqn:Hd.
  rewrite !(run_deployment_spec sys COMPOSE_DIR COMPOSE_FILE _ os r os1 evs Hd).
  cbn [events final_os outcome fst snd tl commands].
  repeat (split; [reflexivity|]).
  pose proof (deploy_cases sys COMPOSE_DIR COMPOSE_FILE os) as Hc.
  rewrite Hd in Hc. unfold replies_to.
  inversion Hc; subst; clear Hc;
    repeat match goal with
           | |- context [if ?c then _ else _] => destruct c
           | |- context [match ?x with Returns _ => _ | Raises _ => _ end] =>
               destruct x
           end;
    cbn [app commands]; auto.
Qed.

(** ** Concrete instances *)
Lemma C1_witness :
  statuses (events (do_POST Sim.system Witness.secret Sim.default_dir Sim.default_file
                            Witness.wrong_scheme (Witness.ready []))) = [401%Z]
  /\ commands (events (do_POST Sim.system Witness.secret Sim.default_dir Sim.default_file
                               Witness.no_header (Witness.ready []))) = [].
Proof.
  split.
  - apply (C1_unauthorized_request_rejected Sim.system Witness.secret
             Sim.default_dir Sim.default_file Witness.wrong_scheme (Witness.ready [])).
    + discriminate.
    + right. vm_compute. discriminate.
  - apply (C1_unauthorized_request_rejected Sim.system Witness.secret
             Sim.default_dir Sim.default_file Witness.no_header (Witness.ready [])).
    + discriminate.
    + left. intros k v [H|[]]. injection H as <- <-. vm_compute. discriminate.
Defined.

Lemma C6_witness :
  do_POST Sim.system "" Sim.default_dir Sim.default_file
          Witness.no_header (Witness.ready [])
  = run_deployment Sim.system Sim.default_dir Sim.default_file
          Witness.no_header (Witness.ready []).
Proof.
  apply (C6_empty_secret_always_authenticated Sim.system "" Sim.default_dir
           Sim.default_file Witness.no_header (Witness.ready [])).
  reflexivity.
Defined.

Lemma C2_witness :
  body_written
    (events (do_POST Sim.system Witness.secret Sim.default_dir Sim.default_file
                     Witness.good (Witness.ready [Sim.exit_with 1 "manifest unknown"])))
  = encode "Deployment failed: manifest unknown".
Proof.
  apply (C2_pull_failure_is_final Sim.system Witness.secret Sim.default_dir
           Sim.default_file Witness.good
           (Witness.ready [Sim.exit_with 1 "manifest unknown"])
           (Witness.ready [Sim.exit_with 1 "manifest unknown"])
           (Witness.ready [])
           (mkCompletedProcess [] 1 "" "manifest unknown")).
  - reflexivity.
  - reflexivity.
  - simpl. lia.
  - reflexivity.
Defined.

Lemma C3_witness :
  statuses
    (events (do_POST Sim.system Witness.secret Sim.default_dir Sim.default_file
                     Witness.good
                     (Witness.ready [Sim.exit_with 0 ""; Sim.exit_with 0 ""])))
  = [200%Z].
Proof.
  apply (C3_both_stages_succeed Sim.system Witness.secret Sim.default_dir
           Sim.default_file Witness.good
           (Witness.ready [Sim.exit_with 0 ""; Sim.exit_with 0 ""])
           (Witness.ready [Sim.exit_with 0 ""; Sim.exit_with 0 ""])
           (Witness.ready [Sim.exit_with 0 ""])
           (Witness.ready [])
           (mkCompletedProcess [] 0 "" "") (mkCompletedProcess [] 0 "" ""));
    reflexivity.
Defined.

Lemma C4_witness :
  body_written
    (events (do_POST Sim.system Witness.secret Sim.default_dir Sim.default_file
                     Witness.good
                     (Witness.ready [Sim.exit_with 0 ""; Sim.exit_with 125 "port in use"])))
  = encode "Deployment failed: port in use".
Proof.
  apply (C4_up_failure_reported Sim.system Witness.secret Sim.default_dir
           Sim.default_file Witness.good
           (Witness.ready [Sim.exit_with 0 ""; Sim.exit_with 125 "port in use"])
           (Witness.ready [Sim.exit_with 0 ""; Sim.exit_with 125 "port in use"])
           (Witness.ready [Sim.exit_with 125 "port in use"])
           (Witness.ready [])
           (mkCompletedProcess [] 0 "" "") (mkCompletedProcess [] 125 "" "port in use"));
    try reflexivity.
  simpl. lia.
Defined.

Lemma C7_witness :
  commands
    [PathExists Sim.default_path (Returns true);
     Log INFO "Pulling latest image...";
     SubprocessRun (PULL Sim.default_dir Sim.default_file) (Sim.exit_with 0 "");
     Log INFO "Restarting container...";
     SubprocessRun (UP Sim.default_dir Sim.default_file) (Sim.exit_with 0 "")]
  = [ {| args := ["docker"; "compose"; "-f"; Sim.default_path; "pull"];
         capture_output := true; text := true; cwd := Sim.default_dir |};
      {| args := ["docker"; "compose"; "-f"; Sim.default_path;
                  "up"; "-d"; "--remove-orphans"];
         capture_output := true; text := true; cwd := Sim.default_dir |} ].
Proof.
  apply (C7_successful_deploy_runs_pull_then_up Sim.system Sim.default_dir
           Sim.default_file
           (Witness.ready [Sim.exit_with 0 ""; Sim.exit_with 0 ""])
           (Witness.ready [])
           (mkCompletedProcess [] 0 "" ""));
    reflexivity.
Defined.

Lemma C9_witness :
  commands
    (events (do_POST Sim.system Witness.secret Sim.default_dir Sim.default_file
                     Witness.good
                     (Witness.ready [Sim.exit_with 0 ""; Sim.exit_with 0 ""])))
  = commands
      (events (do_POST Sim.system "" Sim.default_dir Sim.default_file
                       (mkRequest "/deploy?cmd=rm" [("X-Cmd", "rm -rf /")]
                                  (encode "; rm -rf /") ("192.0.2.1", 4444%Z))
                       (Witness.ready [Sim.exit_with 0 ""; Sim.exit_with 0 ""]))).
Proof.
  apply (C9_commands_independent_of_request Sim.system Sim.default_dir
           Sim.default_file Witness.secret "" Witness.good
           (mkRequest "/deploy?cmd=rm" [("X-Cmd", "rm -rf /")]
                      (encode "; rm -rf /") ("192.0.2.1", 4444%Z))
           (Witness.ready [Sim.exit_with 0 ""; Sim.exit_with 0 ""]));
    reflexivity.
Defined.


(** * Further properties of the handler, the path and the startup code *)

(** ** Traces and appending *)

Lemma statuses_app (xs ys : list Event) :
  statuses (xs ++ ys) = (statuses xs ++ statuses ys)%list.
Proof.
  induction xs as [|x xs IH]; simpl; [reflexivity|].
  destruct x; simpl; rewrite IH; reflexivity.
Qed.

Lemma commands_app (xs ys : list Event) :
  commands (xs ++ ys) = (commands xs ++ commands ys)%list.
Proof.
  induction xs as [|x xs IH]; simpl; [reflexivity|].
  destruct x; simpl; rewrite IH; reflexivity.
Qed.

Lemma body_written_app (xs ys : list Event) :
  body_written (xs ++ ys) = (body_written xs ++ body_written ys)%list.
Proof.
  induction xs as [|x xs IH]; simpl; [reflexivity|].
  destruct x; simpl; rewrite IH; try reflexivity.
  apply app_assoc.
Qed.

(** [deploy] itself sends nothing to the client. *)
Lemma deploy_silent (sys : System) (D F : string) (os : OS sys) run :
  DeployRun sys D F os run ->
  statuses (events run) = [] /\ body_written (events run) = [].
Proof. intros H; inversion H; subst; split; reflexivity. Qed.

Lemma replies_to_commands (r : Result CompletedProcess) : commands (replies_to r) = [].
Proof.
  destruct r as [cp|e]; simpl.
  - destruct (returncode cp =? 0)%Z; reflexivity.
  - destruct (isinstance_Exception e); reflexivity.
Qed.

(** The two ways a request can go: turned away at the gate, or answered
    from the outcome of [deploy]. *)
Lemma do_POST_shape (sys : System) (SECRET D F : string) (self : Request) (os : OS sys) :
  (authenticated SECRET self = false
   /\ do_POST sys SECRET D F self os =
        (Returns tt, os,
         [Log WARNING ("Unauthorized request from " ++ fst (client_address self));
          SendResponse 401; EndHeaders; WfileWrite (bytes_lit "Unauthorized")]))
  \/ (authenticated SECRET self = true
      /\ exists r os1 evs,
           deploy sys D F os = (r, os1, evs)
           /\ DeployRun sys D F os (r, os1, evs)
           /\ do_POST sys SECRET D F self os =
                (outcome_after r, os1,
                 Log INFO ("Received deployment webhook from "
                           ++ fst (client_address self))
                 :: evs ++ replies_to r)%list).
Proof.
  destruct (authenticated SECRET self) eqn:Hauth.
  - right. split; [reflexivity|].
    destruct (deploy sys D F os) as [[r os1] evs] eqn:Hd.
    exists r, os1, evs. split; [reflexivity|]. split.
    + rewrite <- Hd. apply deploy_cases.
    + rewrite (do_POST_authenticated sys SECRET D F self Hauth).
      apply run_deployment_spec, Hd.
  - left. split; [reflexivity|]. apply do_POST_rejected, Hauth.
Qed.

(** The request depends on the headers only through the value that
    [headers.get('Authorization', '')] returns. *)
Lemma do_POST_header_value (sys : System) (SECRET D F : string) (self1 self2 : Request) :
  headers_get (headers self1) "Authorization" ""
  = headers_get (headers self2) "Authorization" "" ->
  client_address self1 = client_address self2 ->
  do_POST sys SECRET D F self1 = do_POST sys SECRET D F self2.
Proof.
  intros Hh Ha. unfold do_POST, run_deployment. rewrite Hh, Ha. reflexivity.
Qed.

Lemma headers_get_first_match (pre post : list (string * string)) (k v name failobj : string) :
  header_absent name pre ->
  lower k = lower name ->
  headers_get (pre ++ (k, v) :: post) name failobj = v.
Proof.
  intros Habs Hk. induction pre as [|[k' v'] pre IH]; simpl.
  - rewrite Hk, String.eqb_refl. reflexivity.
  - destruct (String.eqb (lower k') (lower name)) eqn:E.
    + apply String.eqb_eq in E. exfalso.
      apply (Habs k' v'); [left; reflexivity|exact E].
    + apply IH. intros k2 v2 Hin. apply (Habs k2 v2). right; exact Hin.
Qed.

(** ** The handler: outcomes, statuses and exceptions *)

Section HandlerProperties.

Variable sys : System.
Variables SECRET COMPOSE_DIR COMPOSE_FILE : string.

Local Abbreviation post := (do_POST sys SECRET COMPOSE_DIR COMPOSE_FILE).
Local Abbreviation dep := (deploy sys COMPOSE_DIR COMPOSE_FILE).
Local Abbreviation cpath := (compose_file_path COMPOSE_DIR COMPOSE_FILE).
Local Abbreviation pull := (PULL COMPOSE_DIR COMPOSE_FILE).
Local Abbreviation up := (UP COMPOSE_DIR COMPOSE_FILE).

(** X2.  A request the handler returns from has been sent exactly one
    status, 200, 401 or 500, and a non-empty body. *)
Theorem X2_one_status_per_answered_request (self : Request) (os : OS sys) :
  outcome (post self os) = Returns tt ->
  (statuses (events (post self os)) = [200%Z]
   \/ statuses (events (post self os)) = [401%Z]
   \/ statuses (events (post self os)) = [500%Z])
  /\ body_written (events (post self os)) <> [].
Proof.
  destruct (do_POST_shape sys SECRET COMPOSE_DIR COMPOSE_FILE self os)
    as [[Hauth Hrun] | [Hauth (r & os1 & evs & Hd & Hc & Hrun)]];
    rewrite Hrun; cbn [outcome events fst snd]; intros Hout.
  - split; [right; left; reflexivity|discriminate].
  - destruct (deploy_silent _ _ _ _ _ Hc) as [Hs Hb]. cbn [events snd] in Hs, Hb.
    cbn [statuses body_written]. rewrite statuses_app, body_written_app, Hs, Hb.
    cbn [app]. unfold replies_to.
    destruct r as [cp|e]; simpl in Hout.
    + destruct (returncode cp =? 0)%Z; (split; [auto|]);
        cbn [body_written]; rewrite app_nil_r; discriminate.
    + destruct (isinstance_Exception e); [|discriminate].
      split; [auto|]. cbn [body_written]. rewrite app_nil_r. discriminate.
Qed.

(** X3.  Status 200 is sent only at the end of a complete deployment: the
    trace is then the info log, the existence check answering [True], the
    pull returning exit code 0, the up returning exit code 0, and the
    success reply. *)
Theorem X3_status_200_means_both_stages_returned_0 (self : Request) (os : OS sys) :
  In 200%Z (statuses (events (post self os))) ->
  exists pull_result up_result,
    returncode pull_result = 0%Z
    /\ returncode up_result = 0%Z
    /\ events (post self os) =
         [Log INFO ("Received deployment webhook from " ++ fst (client_address self));
          PathExists cpath (Returns true);
          Log INFO "Pulling latest image...";
          SubprocessRun pull (Returns pull_result);
          Log INFO "Restarting container...";
          SubprocessRun up (Returns up_result);
          SendResponse 200; EndHeaders;
          WfileWrite (bytes_lit "Deployment successful");
          Log INFO "Deployment completed successfully"].
Proof.
  destruct (do_POST_shape sys SECRET COMPOSE_DIR COMPOSE_FILE self os)
    as [[Hauth Hrun] | [Hauth (r & os1 & evs & Hd & Hc & Hrun)]];
    rewrite Hrun; cbn [events snd]; intros Hin.
  - simpl in Hin. intuition discriminate.
  - destruct (deploy_silent _ _ _ _ _ Hc) as [Hs _]. cbn [events snd] in Hs.
    cbn [statuses] in Hin. rewrite statuses_app, Hs in Hin. cbn [app] in Hin.
    assert (Hok : exists cp, r = Returns cp /\ returncode cp = 0%Z).
    { destruct r as [cp|e]; simpl in Hin.
      - destruct (returncode cp =? 0)%Z eqn:E.
        + exists cp. split; [reflexivity|apply Z.eqb_eq, E].
        + simpl in Hin. intuition discriminate.
      - destruct (isinstance_Exception e); simpl in Hin; intuition discriminate. }
    destruct Hok as (cp & -> & Hrc).
    inversion Hc; subst; try contradiction.
    eexists; eexists. split; [eassumption|]. split; [exact Hrc|].
    simpl. apply Z.eqb_eq in Hrc. rewrite Hrc. reflexivity.
Qed.

(** X5.  When the pull command itself raises (for instance because the
    [docker] binary is missing, or on an interrupt), the up command is not
    run: the pull is the only command of the request, and the operating
    system is left as the pull left it. *)
Theorem X5_pull_raising_stops_the_deploy (self : Request) (os os1 os2 : OS sys)
        (e : BaseException) :
  authenticated SECRET self = true ->
  os_exists sys cpath os = (Returns true, os1) ->
  os_run sys pull os1 = (Raises e, os2) ->
  outcome (dep os) = Raises e
  /\ commands (events (post self os)) = [pull]
  /\ final_os (post self os) = os2.
Proof.
  intros Hauth Hex Hpull.
  pose proof (deploy_pull_raises sys COMPOSE_DIR COMPOSE_FILE _ _ _ _ Hex Hpull) as Hd.
  rewrite (do_POST_authenticated sys SECRET COMPOSE_DIR COMPOSE_FILE self Hauth).
  rewrite (run_deployment_spec sys COMPOSE_DIR COMPOSE_FILE self _ _ _ _ Hd), Hd.
  cbn [outcome final_os events fst snd commands].
  rewrite commands_app, replies_to_commands. repeat split.
Qed.

(** X6.  Status 401 is sent exactly when a secret is configured and the
    value of the [Authorization] header differs from ["Bearer " + SECRET]. *)
Theorem X6_status_401_iff_bad_credentials (self : Request) (os : OS sys) :
  In 401%Z (statuses (events (post self os)))
  <-> SECRET <> ""
      /\ headers_get (headers self) "Authorization" "" <> "Bearer " ++ SECRET.
Proof.
  assert (Hiff : authenticated SECRET self = false
                 <-> SECRET <> ""
                     /\ headers_get (headers self) "Authorization" "" <> "Bearer " ++ SECRET).
  { unfold authenticated.
    rewrite orb_false_iff, negb_false_iff, String.eqb_neq, truthy_nonempty.
    reflexivity. }
  rewrite <- Hiff.
  destruct (do_POST_shape sys SECRET COMPOSE_DIR COMPOSE_FILE self os)
    as [[Hauth Hrun] | [Hauth (r & os1 & evs & Hd & Hc & Hrun)]];
    rewrite Hrun; cbn [events snd].
  - split; [intros _; exact Hauth|intros _; simpl; auto].
  - destruct (deploy_silent _ _ _ _ _ Hc) as [Hs _]. cbn [events snd] in Hs.
    cbn [statuses]. rewrite statuses_app, Hs. cbn [app].
    split; [|rewrite Hauth; discriminate].
    intros Hin. exfalso. unfold replies_to in Hin.
    destruct r as [cp|e];
      [destruct (returncode cp =? 0)%Z|destruct (isinstance_Exception e)];
      simpl in Hin; intuition discriminate.
Qed.

End HandlerProperties.

(** ** The handler: what the request can and cannot influence *)

(** X7.  Among several [Authorization] headers the first one decides, and
    its name is matched without regard to case: the request is handled as
    if that header were its only one. *)
Theorem X7_first_Authorization_header_decides
        (sys : System) (SECRET COMPOSE_DIR COMPOSE_FILE : string)
        (self : Request) (pre post : list (string * string)) (k v : string) :
  headers self = (pre ++ (k, v) :: post)%list ->
  header_absent "Authorization" pre ->
  lower k = "authorization" ->
  headers_get (headers self) "Authorization" "" = v
  /\ do_POST sys SECRET COMPOSE_DIR COMPOSE_FILE self
     = do_POST sys SECRET COMPOSE_DIR COMPOSE_FILE
         (mkRequest (path self) [("Authorization", v)] (body self) (client_address self)).
Proof.
  intros Hh Habs Hk.
  assert (Hget : headers_get (headers self) "Authorization" "" = v).
  { rewrite Hh. apply headers_get_first_match; [exact Habs|exact Hk]. }
  split; [exact Hget|].
  apply do_POST_header_value; [|reflexivity].
  rewrite Hget. reflexivity.
Qed.

(** X8.  A request that is turned away leaves a trace that depends on the
    client address only: neither the presented header nor the path or the
    body shows in what is logged or sent, and the operating system is not
    touched. *)
Theorem X8_rejection_shows_only_the_client_address
        (sys : System) (SECRET COMPOSE_DIR COMPOSE_FILE : string)
        (self1 self2 : Request) (os : OS sys) :
  authenticated SECRET self1 = false ->
  authenticated SECRET self2 = false ->
  fst (client_address self1) = fst (client_address self2) ->
  do_POST sys SECRET COMPOSE_DIR COMPOSE_FILE self1 os
  = do_POST sys SECRET COMPOSE_DIR COMPOSE_FILE self2 os
  /\ final_os (do_POST sys SECRET COMPOSE_DIR COMPOSE_FILE self1 os) = os.
Proof.
  intros H1 H2 Ha.
  rewrite (do_POST_rejected sys SECRET COMPOSE_DIR COMPOSE_FILE self1 os H1).
  rewrite (do_POST_rejected sys SECRET COMPOSE_DIR COMPOSE_FILE self2 os H2).
  rewrite Ha. split; reflexivity.
Qed.

(** X9.  The path whose existence is checked is the path handed to both
    commands after [-f]; every command of a request starts with
    [docker compose -f <that path>] and runs in [COMPOSE_DIR] with its
    output captured as text. *)
Theorem X9_checked_path_is_the_path_used
        (sys : System) (SECRET COMPOSE_DIR COMPOSE_FILE : string)
        (self : Request) (os : OS sys) (e : Event) :
  In e (events (do_POST sys SECRET COMPOSE_DIR COMPOSE_FILE self os)) ->
  match e with
  | PathExists p _ => p = compose_file_path COMPOSE_DIR COMPOSE_FILE
  | SubprocessRun inv _ =>
      firstn 4 (args inv)
      = ["docker"; "compose"; "-f"; compose_file_path COMPOSE_DIR COMPOSE_FILE]
      /\ cwd inv = COMPOSE_DIR
      /\ capture_output inv = true
      /\ text inv = true
  | _ => True
  end.
Proof.
  destruct (do_POST_shape sys SECRET COMPOSE_DIR COMPOSE_FILE self os)
    as [[Hauth Hrun] | [Hauth (r & os1 & evs & Hd & Hc & Hrun)]];
    rewrite Hrun; cbn [events snd]; intros Hin.
  - simpl in Hin. repeat (destruct Hin as [<-|Hin]; [exact I|]). destruct Hin.
  - destruct Hin as [<-|Hin]; [exact I|].
    apply in_app_or in Hin. destruct Hin as [Hin|Hin].
    + inversion Hc; subst; simpl in Hin;
        repeat (destruct Hin as [<-|Hin];
                [first [exact I | reflexivity | repeat split]|]);
        destruct Hin.
    + unfold replies_to in Hin.
      destruct r as [cp|e'];
        [destruct (returncode cp =? 0)%Z|destruct (isinstance_Exception e')];
        simpl in Hin;
        repeat (destruct Hin as [<-|Hin]; [exact I|]); destruct Hin.
Qed.

(** ** The compose file path *)

Lemma Path_absolute_root (c : string) :
  truthy (pathlib.root (pathlib.Path (String "/" c))) = true.
Proof.
  unfold pathlib.Path, pathlib.splitroot. cbn [truthy].
  change (Ascii.eqb "/" pathlib.sep) with true. cbv iota.
  destruct (String.length (String "/" c)
            - String.length (lstrip pathlib.sep (String "/" c)) =? 2)%nat;
    reflexivity.
Qed.

(** X10.  An absolute [COMPOSE_FILE] replaces the directory: the path that
    is checked and handed to [docker compose -f] is [COMPOSE_FILE] alone,
    the same for every [COMPOSE_DIR], while the commands still run in
    [COMPOSE_DIR]. *)
Theorem X10_absolute_COMPOSE_FILE_overrides_COMPOSE_DIR
        (COMPOSE_DIR COMPOSE_FILE rest : string) :
  COMPOSE_FILE = String "/" rest ->
  compose_file_path COMPOSE_DIR COMPOSE_FILE = pathlib.str (pathlib.Path COMPOSE_FILE)
  /\ (forall other_dir,
        compose_file_path other_dir COMPOSE_FILE
        = compose_file_path COMPOSE_DIR COMPOSE_FILE)
  /\ cwd (PULL COMPOSE_DIR COMPOSE_FILE) = COMPOSE_DIR
  /\ cwd (UP COMPOSE_DIR COMPOSE_FILE) = COMPOSE_DIR.
Proof.
  intros ->.
  assert (H : forall d, compose_file_path d (String "/" rest)
                        = pathlib.str (pathlib.Path (String "/" rest))).
  { intros d. unfold compose_file_path, pathlib.truediv.
    rewrite Path_absolute_root. reflexivity. }
  split; [apply H|]. split; [intros d; rewrite !H; reflexivity|].
  split; reflexivity.
Qed.

Lemma string_app_assoc (a b c : string) : (a ++ b) ++ c = a ++ b ++ c.
Proof. induction a as [|x a IH]; simpl; [reflexivity|rewrite IH; reflexivity]. Qed.

Lemma truthy_app_l (a b : string) : truthy a = true -> truthy (a ++ b) = true.
Proof. destruct a; simpl; [discriminate|reflexivity]. Qed.

Lemma truthy_app_r (a b : string) : truthy b = true -> truthy (a ++ b) = true.
Proof. destruct a; simpl; [trivial|reflexivity]. Qed.

Lemma split_without_sep (s : string) :
  has_sep s = false -> split pathlib.sep s = [s].
Proof.
  induction s as [|c s IH]; simpl; [reflexivity|].
  intros H. apply orb_false_iff in H. destruct H as [Hc Hs].
  rewrite Hc, (IH Hs). reflexivity.
Qed.

Lemma Path_simple_name (name : string) :
  has_sep name = false -> name <> "" -> name <> "." ->
  pathlib.Path name = pathlib.mkPath "" [name].
Proof.
  intros Hsep Hne Hdot. unfold pathlib.Path, pathlib.splitroot.
  destruct name as [|c name']; [contradiction|]. cbn [truthy].
  pose proof Hsep as Hsep'. simpl in Hsep'. apply orb_false_iff in Hsep'.
  destruct Hsep' as [Hc _]. rewrite Hc.
  rewrite (split_without_sep _ Hsep). cbn [filter].
  unfold pathlib.keep_part. cbn [truthy andb].
  apply String.eqb_neq in Hdot. rewrite Hdot. reflexivity.
Qed.

Lemma join_snoc (sep : string) (ps : list string) (x : string) :
  join sep (ps ++ [x]) =
  match ps with
  | [] => x
  | _ :: _ => join sep ps ++ sep ++ x
  end.
Proof.
  induction ps as [|p ps IH]; [reflexivity|].
  destruct ps as [|q ps]; [reflexivity|].
  change (join sep ((p :: q :: ps) ++ [x])) with (p ++ sep ++ join sep ((q :: ps) ++ [x])).
  rewrite IH.
  change (join sep (p :: q :: ps)) with (p ++ sep ++ join sep (q :: ps)).
  rewrite !string_app_assoc. reflexivity.
Qed.

Lemma join_truthy (sep p : string) (ps : list string) :
  truthy p = true -> truthy (join sep (p :: ps)) = true.
Proof. intros H. destruct ps; simpl; [exact H|apply truthy_app_l, H]. Qed.

(** The components of a parsed path are never empty. *)
Lemma Path_parts_truthy (s p : string) :
  In p (pathlib.parts (pathlib.Path s)) -> truthy p = true.
Proof.
  unfold pathlib.Path. destruct (truthy s); [|intros []].
  destruct (pathlib.splitroot s) as [rt rel]. cbn [pathlib.parts].
  intros Hin. apply filter_In in Hin. destruct Hin as [_ Hk].
  unfold pathlib.keep_part in Hk. apply andb_true_iff in Hk. apply Hk.
Qed.

(** X11.  With a plain file name (no slash, not empty, not ["."]) the
    compose path is the normalised [COMPOSE_DIR], a slash, and the file
    name; a directory without components (empty, or a bare root) contributes
    its root only. *)
Theorem X11_plain_COMPOSE_FILE_is_appended_to_the_directory
        (COMPOSE_DIR COMPOSE_FILE : string) :
  has_sep COMPOSE_FILE = false ->
  COMPOSE_FILE <> "" ->
  COMPOSE_FILE <> "." ->
  compose_file_path COMPOSE_DIR COMPOSE_FILE =
    match pathlib.parts (pathlib.Path COMPOSE_DIR) with
    | [] => pathlib.root (pathlib.Path COMPOSE_DIR) ++ COMPOSE_FILE
    | _ :: _ => pathlib.str (pathlib.Path COMPOSE_DIR) ++ "/" ++ COMPOSE_FILE
    end.
Proof.
  intros Hsep Hne Hdot.
  assert (Hf : truthy COMPOSE_FILE = true) by (apply truthy_nonempty, Hne).
  unfold compose_file_path, pathlib.truediv.
  rewrite (Path_simple_name _ Hsep Hne Hdot). cbn [pathlib.root pathlib.parts truthy].
  pose proof (Path_parts_truthy COMPOSE_DIR) as Hparts.
  destruct (pathlib.Path COMPOSE_DIR) as [rt ps]. cbn [pathlib.root pathlib.parts] in *.
  unfold pathlib.str. cbn [pathlib.root pathlib.parts].
  rewrite join_snoc. destruct ps as [|p ps].
  - rewrite (truthy_app_r _ _ Hf). reflexivity.
  - assert (Hj : truthy (join "/" (p :: ps)) = true).
    { apply join_truthy, Hparts. left; reflexivity. }
    rewrite (truthy_app_r rt _ Hj).
    rewrite (truthy_app_r rt _ (truthy_app_l _ ("/" ++ COMPOSE_FILE) Hj)).
    rewrite string_app_assoc. reflexivity.
Qed.

(** ** Startup and the request loop *)

Section StartupProperties.

Variable sys : System.
Variable Server : Type.
Variable HTTPServer : string * Z -> (Request -> M sys unit) -> M sys Server.
Variable serve_forever : Server -> M sys unit.
Variable shutdown : Server -> M sys unit.
Variable PORT : Z.
Variables SECRET COMPOSE_DIR COMPOSE_FILE : string.

Local Abbreviation the_main :=
  (main sys Server HTTPServer serve_forever shutdown PORT SECRET COMPOSE_DIR COMPOSE_FILE).
Local Abbreviation the_handler := (do_POST sys SECRET COMPOSE_DIR COMPOSE_FILE).

Lemma main_after_warning (os : OS sys) (rest : M sys unit) :
  bind (if negb (truthy SECRET)
        then logger_warning sys "WEBHOOK_SECRET not set - webhook is unprotected!"
        else ret tt) (fun _ => rest) os
  = let '(r, os1, evs) := rest os in (r, os1, (startup_warning SECRET ++ evs)%list).
Proof.
  unfold bind, startup_warning, logger_warning, emit, ret.
  destruct (truthy SECRET); simpl; destruct (rest os) as [[r os1] evs]; reflexivity.
Qed.

(** X12.  When the server cannot be built (the address cannot be bound),
    [main] raises that exception at once: the only thing it may have logged
    is the warning about the missing secret; it does not announce that it
    listens and does not enter the request loop. *)
Theorem X12_main_stops_when_the_server_cannot_be_built
        (os os1 : OS sys) (e : BaseException) (evs : list Event) :
  HTTPServer ("0.0.0.0", PORT) the_handler os = (Raises e, os1, evs) ->
  the_main os = (Raises e, os1, (startup_warning SECRET ++ evs)%list).
Proof.
  intros Hb. unfold main. rewrite main_after_warning.
  unfold bind at 1. rewrite Hb. reflexivity.
Qed.

(** X13.  When the request loop is left by a [KeyboardInterrupt], [main]
    logs ["Shutting down webhook server"], calls [shutdown] and ends with
    the outcome of [shutdown]. *)
Theorem X13_main_shuts_down_on_KeyboardInterrupt
        (os os1 os2 os3 : OS sys) (httpd : Server) (e : BaseException)
        (r : Result unit) (ev1 ev2 ev3 : list Event) :
  HTTPServer ("0.0.0.0", PORT) the_handler os = (Returns httpd, os1, ev1) ->
  serve_forever httpd os1 = (Raises e, os2, ev2) ->
  exc_class e = KeyboardInterrupt ->
  shutdown httpd os2 = (r, os3, ev3) ->
  the_main os =
    (r, os3,
     startup_warning SECRET ++ ev1 ++ startup_banner PORT COMPOSE_DIR COMPOSE_FILE
     ++ ev2 ++ Log INFO "Shutting down webhook server" :: ev3)%list.
Proof.
  intros Hb Hs He Hd. unfold main. rewrite main_after_warning.
  unfold bind, try_except_KeyboardInterrupt, logger_info, emit, startup_banner.
  rewrite Hb. cbn iota beta. rewrite Hs, He. cbn iota beta. rewrite Hd.
  destruct r; reflexivity.
Qed.

(** X14.  Any other exception that leaves the request loop leaves [main]
    as well: nothing more is logged and [shutdown] is not called. *)
Theorem X14_main_lets_other_exceptions_through
        (os os1 os2 : OS sys) (httpd : Server) (e : BaseException)
        (ev1 ev2 : list Event) :
  HTTPServer ("0.0.0.0", PORT) the_handler os = (Returns httpd, os1, ev1) ->
  serve_forever httpd os1 = (Raises e, os2, ev2) ->
  exc_class e <> KeyboardInterrupt ->
  the_main os =
    (Raises e, os2,
     startup_warning SECRET ++ ev1 ++ startup_banner PORT COMPOSE_DIR COMPOSE_FILE
     ++ ev2)%list.
Proof.
  intros Hb Hs He. unfold main. rewrite main_after_warning.
  unfold bind, try_except_KeyboardInterrupt, logger_info, emit, startup_banner.
  rewrite Hb. cbn iota beta. rewrite Hs.
  destruct (exc_class e); try contradiction; reflexivity.
Qed.

End StartupProperties.

Section LoopProperties.

Variable sys : System.
Variables SECRET COMPOSE_DIR COMPOSE_FILE : string.
Hypothesis calm : raises_only_Exceptions sys.

Local Abbreviation handler := (do_POST sys SECRET COMPOSE_DIR COMPOSE_FILE).

(** Without interrupts every request is answered, with one status. *)
Lemma answered_without_interrupts (self : Request) (os : OS sys) :
  outcome (handler self os) = Returns tt
  /\ exists code, statuses (events (handler self os)) = [code]
                  /\ (code = 200 \/ code = 401 \/ code = 500)%Z.
Proof.
  destruct calm as [Hex Hrun].
  destruct (do_POST_shape sys SECRET COMPOSE_DIR COMPOSE_FILE self os)
    as [[Hauth Heq] | [Hauth (r & os1 & evs & Hd & Hc & Heq)]];
    rewrite Heq; cbn [outcome events fst snd].
  - split; [reflexivity|]. exists 401%Z. split; [reflexivity|auto].
  - destruct (deploy_silent _ _ _ _ _ Hc) as [Hs _]. cbn [events snd] in Hs.
    cbn [statuses]. rewrite statuses_app, Hs. cbn [app].
    assert (Hok : match r with
                  | Returns _ => True
                  | Raises e => isinstance_Exception e = true
                  end).
    { inversion Hc; subst; try exact I; try reflexivity;
        try (eapply Hex; eassumption); try (eapply Hrun; eassumption).
      destruct r; [exact I|eapply Hrun; eassumption]. }
    unfold replies_to, outcome_after. destruct r as [cp|e].
    + split; [reflexivity|].
      destruct (returncode cp =? 0)%Z; eexists; (split; [reflexivity|auto]).
    + rewrite Hok. split; [reflexivity|]. eexists; (split; [reflexivity|auto]).
Qed.

Lemma serve_requests_step (self : Request) (reqs : list Request) (os os1 : OS sys)
      (evs : list Event) :
  handler self os = (Returns tt, os1, evs) ->
  serve_requests sys handler (self :: reqs) os
  = let '(r, os2, evs') := serve_requests sys handler reqs os1 in
    (r, os2, (evs ++ evs')%list).
Proof.
  intros H. cbn [serve_requests]. unfold bind at 1, try_except. rewrite H.
  reflexivity.
Qed.

Lemma serve_requests_returns (reqs : list Request) (os : OS sys) :
  outcome (serve_requests sys handler reqs os) = Returns tt
  /\ length (statuses (events (serve_requests sys handler reqs os))) = length reqs.
Proof.
  revert os. induction reqs as [|self reqs IH]; intros os; [split; reflexivity|].
  destruct (answered_without_interrupts self os) as [Hout (code & Hst & _)].
  destruct (handler self os) as [[r os1] evs] eqn:Hrun.
  cbn [outcome events fst snd] in Hout, Hst. subst r.
  rewrite (serve_requests_step self reqs os os1 evs Hrun).
  specialize (IH os1).
  destruct (serve_requests sys handler reqs os1) as [[r2 os2] evs2].
  cbn [outcome events fst snd] in *. destruct IH as [IH1 IH2].
  rewrite statuses_app, Hst. cbn [app length]. rewrite IH2. split; [exact IH1|reflexivity].
Qed.

Lemma startup_lines_send_nothing (PORT : Z) :
  statuses (startup_warning SECRET) = []
  /\ statuses (startup_banner PORT COMPOSE_DIR COMPOSE_FILE) = [].
Proof. unfold startup_warning. destruct (truthy SECRET); split; reflexivity. Qed.

(** X15.  As long as the operating system raises nothing but [Exception]s,
    no request stops the loop: whatever the deploys do (missing file,
    failing or crashing commands), every request of the sequence is
    answered, each with one status among 200, 401 and 500. *)
Theorem X15_every_request_is_answered (reqs : list Request) (os : OS sys) :
  outcome (serve_requests sys handler reqs os) = Returns tt
  /\ length (statuses (events (serve_requests sys handler reqs os))) = length reqs
  /\ Forall (fun code => code = 200 \/ code = 401 \/ code = 500)%Z
            (statuses (events (serve_requests sys handler reqs os))).
Proof.
  revert os. induction reqs as [|self reqs IH]; intros os.
  - repeat split. constructor.
  - destruct (answered_without_interrupts self os) as [Hout (code & Hst & Hcode)].
    destruct (handler self os) as [[r os1] evs] eqn:Hrun.
    cbn [outcome events fst snd] in Hout, Hst. subst r.
    rewrite (serve_requests_step self reqs os os1 evs Hrun).
    specialize (IH os1).
    destruct (serve_requests sys handler reqs os1) as [[r2 os2] evs2].
    cbn [outcome events fst snd] in *.
    destruct IH as (IH1 & IH2 & IH3).
    rewrite statuses_app, Hst. cbn [app length].
    split; [exact IH1|]. split; [rewrite IH2; reflexivity|].
    constructor; assumption.
Qed.

(** X16.  A whole run on an operating system that raises nothing but
    [Exception]s: the server is built, serves [reqs] and is then
    interrupted at the keyboard.  [main] ends normally; its log is the
    startup lines, then the traces of the requests in order, then
    ["Shutting down webhook server"]; and as many statuses were sent as
    requests came in. *)
Theorem X16_run_of_main_until_interrupt (PORT : Z) (reqs : list Request) (os : OS sys) :
  outcome (main sys (Request -> M sys unit) (fun _ h => ret h)
                (serve_then_interrupt sys reqs) (fun _ => ret tt)
                PORT SECRET COMPOSE_DIR COMPOSE_FILE os) = Returns tt
  /\ events (main sys (Request -> M sys unit) (fun _ h => ret h)
                  (serve_then_interrupt sys reqs) (fun _ => ret tt)
                  PORT SECRET COMPOSE_DIR COMPOSE_FILE os)
     = (startup_warning SECRET ++ startup_banner PORT COMPOSE_DIR COMPOSE_FILE
        ++ events (serve_requests sys handler reqs os)
        ++ [Log INFO "Shutting down webhook server"])%list
  /\ length (statuses (events (main sys (Request -> M sys unit) (fun _ h => ret h)
                                    (serve_then_interrupt sys reqs) (fun _ => ret tt)
                                    PORT SECRET COMPOSE_DIR COMPOSE_FILE os)))
     = length reqs.
Proof.
  destruct (serve_requests_returns reqs os) as [Hout Hlen].
  destruct (startup_lines_send_nothing PORT) as [Hw Hb].
  unfold main. rewrite (main_after_warning sys SECRET).
  unfold serve_then_interrupt, try_except_KeyboardInterrupt, bind, ret, raise,
    logger_info, emit.
  fold handler.
  destruct (serve_requests sys handler reqs os) as [[r os1] evs].
  cbn [outcome events fst snd] in Hout, Hlen. subst r.
  cbn [outcome events fst snd exc_class app].
  rewrite app_nil_r.
  split; [reflexivity|]. split; [reflexivity|].
  rewrite statuses_app, Hw. cbn [app statuses].
  rewrite statuses_app. cbn [statuses]. rewrite app_nil_r. exact Hlen.
Qed.

End LoopProperties.


(** ** Configuration *)

Lemma no_header_is_not_a_token (SECRET : string) :
  String.eqb "" ("Bearer " ++ SECRET) = false.
Proof. reflexivity. Qed.

(** X17.  In an environment that sets none of the four variables the
    server listens on port 9000 without a secret, and the two commands are
    [docker compose -f /opt/media-server/docker-compose.prod.yml pull] and
    [... up -d --remove-orphans], run in [/opt/media-server]. *)
Theorem X17_configuration_defaults (int : string -> option Z)
        (environ : list (string * string)) :
  environ_lookup environ "WEBHOOK_PORT" = None ->
  environ_lookup environ "WEBHOOK_SECRET" = None ->
  environ_lookup environ "COMPOSE_DIR" = None ->
  environ_lookup environ "COMPOSE_FILE" = None ->
  Config.PORT int environ = Some 9000%Z
  /\ Config.SECRET environ = ""
  /\ PULL (Config.COMPOSE_DIR environ) (Config.COMPOSE_FILE environ)
     = {| args := ["docker"; "compose"; "-f";
                   "/opt/media-server/docker-compose.prod.yml"; "pull"];
          capture_output := true; text := true; cwd := "/opt/media-server" |}
  /\ UP (Config.COMPOSE_DIR environ) (Config.COMPOSE_FILE environ)
     = {| args := ["docker"; "compose"; "-f";
                   "/opt/media-server/docker-compose.prod.yml";
                   "up"; "-d"; "--remove-orphans"];
          capture_output := true; text := true; cwd := "/opt/media-server" |}.
Proof.
  intros Hp Hs Hd Hf.
  unfold Config.PORT, Config.SECRET, Config.COMPOSE_DIR, Config.COMPOSE_FILE, environ_get.
  rewrite Hp, Hs, Hd, Hf. repeat split.
Qed.

Lemma Calm_never_raises : raises_only_Exceptions Calm.system.
Proof.
  split.
  - intros p os e os' H. discriminate H.
  - intros inv os e os' H. cbn in H. unfold Calm.run in H.
    destruct (Calm.exits os) as [|[code err] rest]; discriminate H.
Qed.

(** ** Concrete instances of the further properties *)

Lemma X2_witness :
  body_written
    (events (do_POST Sim.system Witness.secret Sim.default_dir Sim.default_file
                     Witness.good
                     (Witness.ready [Sim.exit_with 0 ""; Sim.exit_with 0 ""])))
  <> [].
Proof.
  apply (X2_one_status_per_answered_request Sim.system Witness.secret
           Sim.default_dir Sim.default_file Witness.good
           (Witness.ready [Sim.exit_with 0 ""; Sim.exit_with 0 ""])).
  reflexivity.
Defined.

Lemma X3_witness :
  length
    (events (do_POST Sim.system Witness.secret Sim.default_dir Sim.default_file
                     Witness.good
                     (Witness.ready [Sim.exit_with 0 ""; Sim.exit_with 0 ""])))
  = 10.
Proof.
  destruct (X3_status_200_means_both_stages_returned_0 Sim.system Witness.secret
              Sim.default_dir Sim.default_file Witness.good
              (Witness.ready [Sim.exit_with 0 ""; Sim.exit_with 0 ""]))
    as (pull_result & up_result & _ & _ & ->).
  - vm_compute. left. reflexivity.
  - reflexivity.
Defined.

Lemma X5_witness :
  commands
    (events (do_POST Sim.system Witness.secret Sim.default_dir Sim.default_file
                     Witness.good
                     (Witness.ready [Raises (Exc KeyboardInterrupt "");
                                     Sim.exit_with 0 ""])))
  = [PULL Sim.default_dir Sim.default_file].
Proof.
  apply (X5_pull_raising_stops_the_deploy Sim.system Witness.secret
           Sim.default_dir Sim.default_file Witness.good
           (Witness.ready [Raises (Exc KeyboardInterrupt ""); Sim.exit_with 0 ""])
           (Witness.ready [Raises (Exc KeyboardInterrupt ""); Sim.exit_with 0 ""])
           (Witness.ready [Sim.exit_with 0 ""])
           (Exc KeyboardInterrupt ""));
    reflexivity.
Defined.

Lemma X7_witness :
  headers_get
    (headers (Sim.request [("Host", "deploy.example");
                           ("authorization", "Bearer abc123");
                           ("Authorization", "Bearer other")]))
    "Authorization" ""
  = "Bearer abc123".
Proof.
  apply (X7_first_Authorization_header_decides Sim.system Witness.secret
           Sim.default_dir Sim.default_file
           (Sim.request [("Host", "deploy.example");
                         ("authorization", "Bearer abc123");
                         ("Authorization", "Bearer other")])
           [("Host", "deploy.example")]
           [("Authorization", "Bearer other")]
           "authorization" "Bearer abc123").
  - reflexivity.
  - intros k v [H|[]]. injection H as <- <-. vm_compute. discriminate.
  - reflexivity.
Defined.

Lemma X8_witness :
  do_POST Sim.system Witness.secret Sim.default_dir Sim.default_file
          Witness.wrong_scheme (Witness.ready [])
  = do_POST Sim.system Witness.secret Sim.default_dir Sim.default_file
            Witness.no_header (Witness.ready []).
Proof.
  apply (X8_rejection_shows_only_the_client_address Sim.system Witness.secret
           Sim.default_dir Sim.default_file Witness.wrong_scheme Witness.no_header
           (Witness.ready []));
    reflexivity.
Defined.

Lemma X9_witness :
  firstn 4 (args (PULL Sim.default_dir Sim.default_file))
  = ["docker"; "compose"; "-f"; compose_file_path Sim.default_dir Sim.default_file].
Proof.
  apply (X9_checked_path_is_the_path_used Sim.system Witness.secret
           Sim.default_dir Sim.default_file Witness.good
           (Witness.ready [Sim.exit_with 0 ""; Sim.exit_with 0 ""])
           (SubprocessRun (PULL Sim.default_dir Sim.default_file) (Sim.exit_with 0 ""))).
  vm_compute. do 3 right. left. reflexivity.
Defined.

Lemma X10_witness :
  compose_file_path Sim.default_dir "/etc/stack/compose.yml" = "/etc/stack/compose.yml"
  /\ cwd (PULL Sim.default_dir "/etc/stack/compose.yml") = Sim.default_dir.
Proof.
  split;
    apply (X10_absolute_COMPOSE_FILE_overrides_COMPOSE_DIR Sim.default_dir
             "/etc/stack/compose.yml" "etc/stack/compose.yml");
    reflexivity.
Defined.

Lemma X11_witness :
  compose_file_path "/opt//media-server/" "docker-compose.prod.yml"
  = "/opt/media-server" ++ "/" ++ "docker-compose.prod.yml".
Proof.
  apply (X11_plain_COMPOSE_FILE_is_appended_to_the_directory
           "/opt//media-server/" "docker-compose.prod.yml");
    [reflexivity | discriminate | discriminate].
Defined.

Lemma X12_witness :
  main Sim.system unit Demo.port_taken Demo.interrupted Demo.no_effect
       80%Z "" Sim.default_dir Sim.default_file Demo.idle
  = (Raises (Exc OSError "[Errno 98] Address already in use"), Demo.idle,
     [Log WARNING "WEBHOOK_SECRET not set - webhook is unprotected!"]).
Proof.
  apply (X12_main_stops_when_the_server_cannot_be_built Sim.system unit
           Demo.port_taken Demo.interrupted Demo.no_effect 80%Z ""
           Sim.default_dir Sim.default_file Demo.idle Demo.idle
           (Exc OSError "[Errno 98] Address already in use") []).
  reflexivity.
Defined.

Lemma X13_witness :
  main Sim.system unit Demo.bound Demo.interrupted Demo.no_effect
       9000%Z Witness.secret Sim.default_dir Sim.default_file Demo.idle
  = (Returns tt, Demo.idle,
     [Log INFO "Webhook server listening on port 9000";
      Log INFO "Compose directory: /opt/media-server";
      Log INFO "Compose file: docker-compose.prod.yml";
      Log INFO "Shutting down webhook server"]).
Proof.
  apply (X13_main_shuts_down_on_KeyboardInterrupt Sim.system unit
           Demo.bound Demo.interrupted Demo.no_effect 9000%Z Witness.secret
           Sim.default_dir Sim.default_file Demo.idle Demo.idle Demo.idle Demo.idle
           tt (Exc KeyboardInterrupt "") (Returns tt) [] [] []);
    reflexivity.
Defined.

Lemma X14_witness :
  main Sim.system unit Demo.bound Demo.select_fails Demo.no_effect
       9000%Z Witness.secret Sim.default_dir Sim.default_file Demo.idle
  = (Raises (Exc OSError "[Errno 9] Bad file descriptor"), Demo.idle,
     [Log INFO "Webhook server listening on port 9000";
      Log INFO "Compose directory: /opt/media-server";
      Log INFO "Compose file: docker-compose.prod.yml"]).
Proof.
  apply (X14_main_lets_other_exceptions_through Sim.system unit
           Demo.bound Demo.select_fails Demo.no_effect 9000%Z Witness.secret
           Sim.default_dir Sim.default_file Demo.idle Demo.idle Demo.idle
           tt (Exc OSError "[Errno 9] Bad file descriptor") [] []);
    [reflexivity | reflexivity | discriminate].
Defined.

Lemma X15_witness :
  length
    (statuses
       (events (serve_requests Calm.system
                  (do_POST Calm.system Witness.secret Sim.default_dir Sim.default_file)
                  Demo.three_requests Demo.flaky)))
  = 3.
Proof.
  apply (X15_every_request_is_answered Calm.system Witness.secret
           Sim.default_dir Sim.default_file Calm_never_raises
           Demo.three_requests Demo.flaky).
Defined.

Lemma X16_witness :
  outcome
    (main Calm.system (Request -> M Calm.system unit) (fun _ h => ret h)
          (serve_then_interrupt Calm.system Demo.three_requests) (fun _ => ret tt)
          9000%Z Witness.secret Sim.default_dir Sim.default_file Demo.flaky)
  = Returns tt.
Proof.
  apply (X16_run_of_main_until_interrupt Calm.system Witness.secret
           Sim.default_dir Sim.default_file Calm_never_raises
           9000%Z Demo.three_requests Demo.flaky).
Defined.

Lemma X17_witness :
  Config.PORT (fun _ => None) Demo.bare_environ = Some 9000%Z
  /\ Config.SECRET Demo.bare_environ = "".
Proof.
  split;
    apply (X17_configuration_defaults (fun _ => None) Demo.bare_environ);
    reflexivity.
Defined.

(** Three requests in a row on a host whose first pull fails: the failure
    is reported, the request without a token is turned away, and the third
    request deploys. *)
Example run_three_requests :
  statuses
    (events (serve_requests Calm.system
               (do_POST Calm.system Witness.secret Sim.default_dir Sim.default_file)
               Demo.three_requests Demo.flaky))
  = [500%Z; 401%Z; 200%Z].
Proof. reflexivity. Qed.

(** ** The handler when [encode()] can raise *)

Lemma utf8_valid_after_Error (s : string) :
  utf8_valid ("Error: " ++ s) = utf8_valid s.
Proof. reflexivity. Qed.

Lemma utf8_valid_after_Deployment_failed (s : string) :
  utf8_valid ("Deployment failed: " ++ s) = utf8_valid s.
Proof. reflexivity. Qed.

Section StrictProperties.

Variable sys : System.
Variable codec_error : string -> string.
Variables SECRET COMPOSE_DIR COMPOSE_FILE : string.

Local Abbreviation strict := (do_POST_strict sys codec_error SECRET COMPOSE_DIR COMPOSE_FILE).
Local Abbreviation strict_run := (run_deployment_strict sys codec_error COMPOSE_DIR COMPOSE_FILE).
Local Abbreviation dep := (deploy sys COMPOSE_DIR COMPOSE_FILE).

Lemma do_POST_strict_authenticated (self : Request) :
  authenticated SECRET self = true ->
  strict self = strict_run self.
Proof.
  unfold authenticated, do_POST_strict. intros H.
  destruct (truthy SECRET); simpl in *; [|reflexivity].
  rewrite H. reflexivity.
Qed.

Lemma do_POST_strict_rejected (self : Request) :
  authenticated SECRET self = false ->
  strict self = do_POST sys SECRET COMPOSE_DIR COMPOSE_FILE self.
Proof.
  unfold authenticated, do_POST_strict, do_POST. intros H.
  apply orb_false_iff in H. destruct H as [H1 H2].
  apply negb_false_iff in H1. rewrite H1, H2. reflexivity.
Qed.

(** Every way the deployment path can end, by the outcome of [deploy] and
    by whether the text of the reply can be encoded. *)
Lemma run_deployment_strict_cases (self : Request) (os os1 : OS sys)
      (r : Result CompletedProcess) (evs : list Event) :
  dep os = (r, os1, evs) ->
  strict_run self os =
    match r with
    | Returns result =>
        if (returncode result =? 0)%Z then
          (Returns tt, os1,
           Log INFO ("Received deployment webhook from " ++ fst (client_address self))
           :: evs ++ [SendResponse 200; EndHeaders;
                      WfileWrite (bytes_lit "Deployment successful");
                      Log INFO "Deployment completed successfully"])%list
        else if utf8_valid (stderr result) then
          (Returns tt, os1,
           Log INFO ("Received deployment webhook from " ++ fst (client_address self))
           :: evs ++ [SendResponse 500; EndHeaders;
                      WfileWrite (encode ("Deployment failed: " ++ stderr result));
                      Log ERROR ("Deployment failed: " ++ stderr result)])%list
        else if utf8_valid (codec_error ("Deployment failed: " ++ stderr result)) then
          (Returns tt, os1,
           Log INFO ("Received deployment webhook from " ++ fst (client_address self))
           :: evs ++ [SendResponse 500; EndHeaders; SendResponse 500; EndHeaders;
                      WfileWrite
                        (encode ("Error: "
                                 ++ codec_error ("Deployment failed: " ++ stderr result)));
                      Log ERROR "Deployment error"])%list
        else
          (Raises (Exc UnicodeEncodeError
                       (codec_error
                          ("Error: "
                           ++ codec_error ("Deployment failed: " ++ stderr result)))),
           os1,
           Log INFO ("Received deployment webhook from " ++ fst (client_address self))
           :: evs ++ [SendResponse 500; EndHeaders; SendResponse 500; EndHeaders])%list
    | Raises e =>
        if isinstance_Exception e then
          if utf8_valid (str_exc e) then
            (Returns tt, os1,
             Log INFO ("Received deployment webhook from " ++ fst (client_address self))
             :: evs ++ [SendResponse 500; EndHeaders;
                        WfileWrite (encode ("Error: " ++ str_exc e));
                        Log ERROR "Deployment error"])%list
          else
            (Raises (Exc UnicodeEncodeError (codec_error ("Error: " ++ str_exc e))),
             os1,
             Log INFO ("Received deployment webhook from " ++ fst (client_address self))
             :: evs ++ [SendResponse 500; EndHeaders])%list
        else
          (Raises e, os1,
           Log INFO ("Received deployment webhook from " ++ fst (client_address self))
           :: evs)
    end.
Proof.
  intros Hd.
  unfold run_deployment_strict, try_except, bind, str_encode, logger_info,
    logger_error, logger_exception, send_response, end_headers, wfile_write,
    emit, ret, raise.
  rewrite Hd. destruct r as [result|e].
  - destruct (returncode result =? 0)%Z; [reflexivity|].
    rewrite utf8_valid_after_Deployment_failed.
    destruct (utf8_valid (stderr result)); [reflexivity|].
    cbn [isinstance_Exception exc_class str_exc].
    rewrite utf8_valid_after_Error.
    destruct (utf8_valid (codec_error ("Deployment failed: " ++ stderr result)));
      cbn [app]; rewrite <- ?app_assoc; reflexivity.
  - destruct (isinstance_Exception e); [|rewrite ?app_nil_r; reflexivity].
    rewrite utf8_valid_after_Error.
    destruct (utf8_valid (str_exc e)); reflexivity.
Qed.

(** Where every text to be sent can be encoded, the handler is [do_POST]. *)
Lemma do_POST_strict_agrees (self : Request) (os : OS sys) :
  (forall result, outcome (dep os) = Returns result ->
                  returncode result <> 0%Z -> utf8_valid (stderr result) = true) ->
  (forall e, outcome (dep os) = Raises e ->
             isinstance_Exception e = true -> utf8_valid (str_exc e) = true) ->
  strict self os = do_POST sys SECRET COMPOSE_DIR COMPOSE_FILE self os.
Proof.
  intros Hstderr Hmsg.
  destruct (authenticated SECRET self) eqn:Hauth;
    [|rewrite (do_POST_strict_rejected self Hauth); reflexivity].
  rewrite (do_POST_strict_authenticated self Hauth).
  rewrite (do_POST_authenticated sys SECRET COMPOSE_DIR COMPOSE_FILE self Hauth).
  destruct (dep os) as [[r os1] evs] eqn:Hd. cbn [outcome fst] in Hstderr, Hmsg.
  rewrite (run_deployment_strict_cases self os os1 r evs Hd).
  rewrite (run_deployment_spec sys COMPOSE_DIR COMPOSE_FILE self os r os1 evs Hd).
  unfold outcome_after, replies_to. destruct r as [result|e].
  - destruct (returncode result =? 0)%Z eqn:Hrc; [reflexivity|].
    apply Z.eqb_neq in Hrc. rewrite (Hstderr result eq_refl Hrc). reflexivity.
  - destruct (isinstance_Exception e) eqn:He.
    + rewrite (Hmsg e eq_refl He). reflexivity.
    + rewrite app_nil_r. reflexivity.
Qed.

(** X4.  For a request that was let through and with the client connected,
    whatever [Exception] is raised inside [deploy] (by the existence check,
    by the pull or by the up command), the handler sends 500 and runs no
    further command.  If the message of the exception is valid UTF-8 it
    then writes the body ["Error: " + str(e)], logs the error and returns
    normally; if it is not, [encode()] raises [UnicodeEncodeError] in the
    except handler, which leaves [do_POST] with nothing written and the
    error not logged. *)
Theorem X4_Exception_in_deploy_answered_500 (self : Request) (os : OS sys)
        (e : BaseException) :
  authenticated SECRET self = true ->
  outcome (dep os) = Raises e ->
  isinstance_Exception e = true ->
  statuses (events (strict self os)) = [500%Z]
  /\ commands (events (strict self os)) = commands (events (dep os))
  /\ final_os (strict self os) = final_os (dep os)
  /\ (utf8_valid (str_exc e) = true ->
      outcome (strict self os) = Returns tt
      /\ body_written (events (strict self os)) = encode ("Error: " ++ str_exc e)
      /\ In (Log ERROR "Deployment error") (events (strict self os)))
  /\ (utf8_valid (str_exc e) = false ->
      outcome (strict self os)
      = Raises (Exc UnicodeEncodeError (codec_error ("Error: " ++ str_exc e)))
      /\ body_written (events (strict self os)) = []
      /\ ~ In (Log ERROR "Deployment error") (events (strict self os))).
Proof.
  intros Hauth Hout He.
  destruct (dep os) as [[r os1] evs] eqn:Hd. cbn [outcome fst] in Hout. subst r.
  pose proof (deploy_cases sys COMPOSE_DIR COMPOSE_FILE os) as Hc. rewrite Hd in Hc.
  destruct (deploy_silent _ _ _ _ _ Hc) as [Hs Hb]. cbn [events snd] in Hs, Hb.
  rewrite (do_POST_strict_authenticated self Hauth).
  rewrite (run_deployment_strict_cases self os os1 _ evs Hd), He.
  destruct (utf8_valid (str_exc e)) eqn:Hv;
    cbn [outcome final_os events fst snd statuses body_written commands];
    rewrite statuses_app, body_written_app, commands_app, Hs, Hb;
    cbn [app statuses body_written commands]; rewrite ?app_nil_r;
    (split; [reflexivity|]); (split; [reflexivity|]); (split; [reflexivity|]).
  - split; [|intros; discriminate].
    intros _. repeat split. right. apply in_or_app. right. simpl. auto.
  - split; [intros; discriminate|].
    intros _. repeat split. intros [H|H]; [discriminate|].
    apply in_app_or in H. destruct H as [H|H].
    + inversion Hc; subst; simpl in H; intuition discriminate.
    + simpl in H. intuition discriminate.
Qed.


End StrictProperties.

(** ** The secret, the gate and the startup warning *)

Lemma Config_SECRET_empty (environ : list (string * string)) :
  Config.SECRET environ = ""
  <-> environ_lookup environ "WEBHOOK_SECRET" = None
      \/ environ_lookup environ "WEBHOOK_SECRET" = Some "".
Proof.
  unfold Config.SECRET, environ_get.
  destruct (environ_lookup environ "WEBHOOK_SECRET") as [v|].
  - split; [intros ->; right; reflexivity|].
    intros [H|H]; [discriminate|injection H as ->; reflexivity].
  - split; auto.
Qed.

Lemma status_401_iff_rejected (sys : System) (SECRET D F : string)
      (self : Request) (os : OS sys) :
  In 401%Z (statuses (events (do_POST sys SECRET D F self os)))
  <-> authenticated SECRET self = false.
Proof.
  destruct (do_POST_shape sys SECRET D F self os)
    as [[Hauth Hrun] | [Hauth (r & os1 & evs & Hd & Hc & Hrun)]];
    rewrite Hrun; cbn [events snd].
  - split; [intros _; exact Hauth|intros _; simpl; auto].
  - destruct (deploy_silent _ _ _ _ _ Hc) as [Hs _]. cbn [events snd] in Hs.
    cbn [statuses]. rewrite statuses_app, Hs. cbn [app].
    split; [|rewrite Hauth; discriminate].
    intros Hin. exfalso. unfold replies_to in Hin.
    destruct r as [cp|e];
      [destruct (returncode cp =? 0)%Z|destruct (isinstance_Exception e)];
      simpl in Hin; intuition discriminate.
Qed.

Lemma main_events_after_warning (sys : System) (SECRET : string) (os : OS sys)
      (rest : M sys unit) :
  events (bind (if negb (truthy SECRET)
                then logger_warning sys "WEBHOOK_SECRET not set - webhook is unprotected!"
                else ret tt) (fun _ => rest) os)
  = (startup_warning SECRET ++ events (rest os))%list.
Proof.
  rewrite main_after_warning. destruct (rest os) as [[r os1] evs]. reflexivity.
Qed.

(** X18.  [WEBHOOK_SECRET] is unset or set to the empty string exactly
    when [do_POST] answers no request at all with 401, whatever its
    headers; and exactly when the first thing [main] does, whatever the
    server library does afterwards, is to log the warning that the webhook
    is unprotected. *)
Theorem X18_unprotected_iff_secret_unset_or_empty
        (sys : System) (environ : list (string * string)) (os : OS sys) :
  ((forall self,
      ~ In 401%Z
          (statuses
             (events (do_POST sys (Config.SECRET environ) (Config.COMPOSE_DIR environ)
                              (Config.COMPOSE_FILE environ) self os))))
   <-> environ_lookup environ "WEBHOOK_SECRET" = None
       \/ environ_lookup environ "WEBHOOK_SECRET" = Some "")
  /\ ((forall (Server : Type)
              (HTTPServer : string * Z -> (Request -> M sys unit) -> M sys Server)
              (serve_forever shutdown : Server -> M sys unit) (PORT : Z),
         hd_error
           (events (main sys Server HTTPServer serve_forever shutdown PORT
                         (Config.SECRET environ) (Config.COMPOSE_DIR environ)
                         (Config.COMPOSE_FILE environ) os))
         = Some (Log WARNING "WEBHOOK_SECRET not set - webhook is unprotected!"))
      <-> environ_lookup environ "WEBHOOK_SECRET" = None
          \/ environ_lookup environ "WEBHOOK_SECRET" = Some "").
Proof.
  rewrite <- !Config_SECRET_empty.
  set (SECRET := Config.SECRET environ).
  set (D := Config.COMPOSE_DIR environ). set (F := Config.COMPOSE_FILE environ).
  split; split.
  - intros H. specialize (H (mkRequest "/" [] [] ("", 0%Z))).
    rewrite status_401_iff_rejected in H. apply not_false_is_true in H.
    unfold authenticated in H. cbn [headers headers_get] in H.
    rewrite no_header_is_not_a_token, orb_false_r, negb_true_iff in H.
    apply truthy_empty, H.
  - intros -> self. rewrite status_401_iff_rejected.
    rewrite authenticated_no_secret. discriminate.
  - intros H.
    specialize (H unit (fun _ _ => raise (Exc OSError "")) (fun _ => ret tt)
                  (fun _ => ret tt) 0%Z).
    unfold main in H. rewrite main_events_after_warning in H.
    unfold bind, raise in H. cbn [events snd] in H. rewrite app_nil_r in H.
    unfold startup_warning in H.
    destruct (truthy SECRET) eqn:Ht; [discriminate H|]. apply truthy_empty, Ht.
  - intros HS Server HTTPServer serve_forever shutdown PORT.
    unfold main. rewrite main_events_after_warning, HS. reflexivity.
Qed.

(** ** A missing compose file with a name that is not UTF-8 *)

(** C5.  The claim fails where [COMPOSE_FILE] holds a byte that is not
    UTF-8 (Python reads it as a lone surrogate).  With the compose file
    missing, [deploy] raises [FileNotFoundError] with the message
    ["Compose file not found: <path>"] and no command is run, as the claim
    says; but the handler then sends 500 and nothing else: [encode()] of
    ["Error: " + message] raises [UnicodeEncodeError] inside the except
    handler, so the body stays empty and the exception leaves [do_POST]. *)
Theorem C5_error_body_lost_for_undecodable_COMPOSE_FILE
        (codec_error : string -> string) :
  outcome (deploy Sim.system Sim.default_dir Demo.undecodable_file (Sim.mkWorld [] []))
  = Raises (Exc FileNotFoundError
                ("Compose file not found: /opt/media-server/" ++ Demo.undecodable_file))
  /\ do_POST_strict Sim.system codec_error Witness.secret Sim.default_dir
                    Demo.undecodable_file Witness.good (Sim.mkWorld [] [])
     = (Raises (Exc UnicodeEncodeError
                    (codec_error ("Error: Compose file not found: /opt/media-server/"
                                  ++ Demo.undecodable_file))),
        Sim.mkWorld [] [],
        [Log INFO "Received deployment webhook from 10.0.0.7";
         PathExists ("/opt/media-server/" ++ Demo.undecodable_file) (Returns false);
         SendResponse 500; EndHeaders])
  /\ body_written
       (events (do_POST_strict Sim.system codec_error Witness.secret Sim.default_dir
                               Demo.undecodable_file Witness.good (Sim.mkWorld [] [])))
     <> encode ("Error: Compose file not found: /opt/media-server/"
                ++ Demo.undecodable_file).
Proof.
  assert (Hrun :
    do_POST_strict Sim.system codec_error Witness.secret Sim.default_dir
                   Demo.undecodable_file Witness.good (Sim.mkWorld [] [])
    = (Raises (Exc UnicodeEncodeError
                   (codec_error ("Error: Compose file not found: /opt/media-server/"
                                 ++ Demo.undecodable_file))),
       Sim.mkWorld [] [],
       [Log INFO "Received deployment webhook from 10.0.0.7";
        PathExists ("/opt/media-server/" ++ Demo.undecodable_file) (Returns false);
        SendResponse 500; EndHeaders])) by reflexivity.
  split; [reflexivity|]. split; [exact Hrun|].
  rewrite Hrun. cbn [events snd body_written]. discriminate.
Qed.

(** ** Concrete instances for the handler with [encode()] raising *)

Lemma X4_witness :
  body_written
    (events (do_POST_strict Sim.system Demo.codec_error Witness.secret
                            Sim.default_dir Sim.default_file
                            Witness.good (Witness.ready [])))
  = encode "Error: [Errno 2] No such file or directory: 'docker'".
Proof.
  assert (Hauth : authenticated Witness.secret Witness.good = true)
    by (vm_compute; reflexivity).
  assert (Hdep : outcome (deploy Sim.system Sim.default_dir Sim.default_file
                                 (Witness.ready []))
                 = Raises (Exc FileNotFoundError
                               "[Errno 2] No such file or directory: 'docker'"))
    by (vm_compute; reflexivity).
  destruct (X4_Exception_in_deploy_answered_500 Sim.system Demo.codec_error
              Witness.secret Sim.default_dir Sim.default_file Witness.good
              (Witness.ready []) _ Hauth Hdep eq_refl)
    as (_ & _ & _ & Hvalid & _).
  destruct Hvalid as (_ & Hbody & _); [vm_compute; reflexivity|].
  exact Hbody.
Defined.

